(** * Fantasy-league backend: roster-aware team points aggregation

    A shallow embedding of [models.py] (the [TeamPlayer] roster rows and
    their [add_player] / [remove_player] class methods) and of
    [admin_routes.py] ([update_team_total_points], [delete_game] and the
    validation loop of [add_match_performance]).

    Timestamps ([DateTime] columns) are integers, compared as instants.
    Database rows are records; a table is the list of its rows in query
    order.  Python dicts are stdpp [gmap]s.  Logging ([print]) is omitted. *)

From Stdlib Require Import ZArith List Bool Permutation Lia String QArith.
From stdpp Require Import base gmap list strings.

Open Scope Z_scope.

(* ------------------------------------------------------------------ *)
(** ** Data model ([models.py]) *)

Record Match := mkMatch {
  match_id : Z;
  match_name : string;
  match_date : Z
}.

Record Team := mkTeam {
  team_id : Z;
  team_name : string;
  total_points : Z
}.

(** [TeamPlayer]: composite primary key [(team_id, player_id)]. *)
Record TeamPlayer := mkTeamPlayer {
  tp_team_id : Z;
  tp_player_id : Z;
  is_captain : bool;
  added_date : Z;
  removed_date : option Z
}.

(** [PlayerPerformance]; only the columns the aggregation reads.  The
    [points] column is tested against [None] by the code, so it is kept
    optional here. *)
Record PlayerPerformance := mkPerformance {
  perf_player_id : Z;
  perf_match_id : Z;
  points : option Z
}.

Record TeamPlayerHistory := mkHistory {
  h_team_id : Z;
  h_player_id : Z;
  action : string;
  change_date : Z;
  h_match_id : option Z
}.

(** A change held by the SQLAlchemy session until the next flush: the
    INSERT of a new [TeamPlayer] (the object is "pending", not yet
    persistent), an UPDATE setting a row's [removed_date] to
    [db.func.current_timestamp()], or the INSERT of a history row.  The
    timestamps these write ([added_date]'s and [change_date]'s column
    default, the [removed_date] expression) are evaluated by the flush. *)
Inductive Pending :=
| PendingInsert (team_id player_id : Z)
| PendingRemoval (team_id player_id : Z)
| PendingHistory.

(** The database as seen through the SQLAlchemy session.  [unflushed]
    lists the changes not yet flushed; pending history rows are the last
    ones of [history], one [PendingHistory] each. *)
Record DB := mkDB {
  matches : list Match;
  teams : list Team;
  team_players : list TeamPlayer;
  performances : list PlayerPerformance;
  history : list TeamPlayerHistory;
  player_ids : list Z;
  unflushed : list Pending
}.

Definition with_total (t : Team) (z : Z) : Team :=
  mkTeam (team_id t) (team_name t) z.

(* ------------------------------------------------------------------ *)
(** ** [ORDER BY]: a stable sort on an integer key *)

Fixpoint insert_by {A} (key : A -> Z) (x : A) (l : list A) : list A :=
  match l with
  | [] => [x]
  | y :: l' => if key y <=? key x then y :: insert_by key x l' else x :: l
  end.

(** Rows are inserted left to right, each after the rows of equal key
    already placed, so ties keep query order. *)
Definition order_by {A} (key : A -> Z) (l : list A) : list A :=
  fold_left (fun acc x => insert_by key x acc) l [].

(* ------------------------------------------------------------------ *)
(** ** [update_team_total_points] ([admin_routes.py], lines 19-128) *)

(** Line 71-72: [tp.added_date <= match.date and
    (tp.removed_date is None or tp.removed_date > match.date)]. *)
Definition is_active (tp : TeamPlayer) (t : Z) : bool :=
  (added_date tp <=? t) &&
  match removed_date tp with
  | None => true
  | Some r => t <? r
  end.

(** Lines 69-73: the list comprehension [active_players]. *)
Definition active_players (tps : list TeamPlayer) (t : Z) : list TeamPlayer :=
  List.filter (fun tp => is_active tp t) tps.

(** Line 50: [PlayerPerformance.query.filter_by(match_id=match.id).all()]. *)
Definition performances_for (db : DB) (mid : Z) : list PlayerPerformance :=
  List.filter (fun p => perf_match_id p =? mid) (performances db).

(** Line 51: [{p.player_id: p for p in performances}] (a later row
    overwrites an earlier one with the same key). *)
Definition perf_dict (ps : list PlayerPerformance) : gmap Z PlayerPerformance :=
  fold_left (fun d p => <[perf_player_id p := p]> d) ps ∅.

(** Lines 48-51: [match_performances]. *)
Definition match_performances (db : DB) (ms : list Match)
    : gmap Z (gmap Z PlayerPerformance) :=
  fold_left (fun d m => <[match_id m := perf_dict (performances_for db (match_id m))]> d)
    ms ∅.

(** Lines 93-95: captain doubling. *)
Definition captain_points (tp : TeamPlayer) (p : Z) : Z :=
  if is_captain tp then p * 2 else p.

(** Lines 86-102: the loop over the active players of one match, giving
    [(match_points, match_players)]. *)
Definition match_tally (perfs : gmap Z PlayerPerformance) (act : list TeamPlayer)
    : Z * nat :=
  fold_left (fun '(mp, mc) tp =>
      match perfs !! tp_player_id tp with
      | Some performance =>
          match points performance with
          | Some p => (mp + captain_points tp p, S mc)
          | None => (mp, mc)
          end
      | None => (mp, mc)
      end) act (0, 0%nat).

(** Lines 54-106: the body of [for team in teams], updating the
    [team_points] dict. *)
Definition process_team (ms : list Match) (mperfs : gmap Z (gmap Z PlayerPerformance))
    (all_tps : list TeamPlayer) (team_points : gmap Z Z) (team : Team) : gmap Z Z :=
  let tps := order_by added_date
               (List.filter (fun tp => tp_team_id tp =? team_id team) all_tps) in
  match tps with
  | [] => team_points
  | _ =>
    fold_left (fun acc m =>
        match active_players tps (match_date m) with
        | [] => acc
        | act =>
          let performances := default ∅ (mperfs !! match_id m) in
          let '(match_points, match_players) := match_tally performances act in
          if (0 <? match_players)%nat
          then <[team_id team := (acc !!! team_id team) + match_points]> acc
          else acc
        end) ms team_points
  end.

(** Lines 45-106: the [team_points] dict computed from sorted matches
    [ms] and teams [ts]. *)
Definition team_points_of (db : DB) (ms : list Match) (ts : list Team) : gmap Z Z :=
  let init := fold_left (fun d t => <[team_id t := 0]> d) ts ∅ in
  fold_left (process_team ms (match_performances db ms) (team_players db)) ts init.

(** Lines 110-114: the staged writes [team.total_points = team_points.get(team.id, 0)]
    followed by a successful [db.session.commit()]. *)
Definition write_totals (db : DB) (tpts : gmap Z Z) : DB :=
  mkDB (matches db)
       (map (fun t => with_total t (default 0 (tpts !! team_id t))) (teams db))
       (team_players db) (performances db) (history db) (player_ids db) [].

(** The result of a call: a returned value or a raised exception. *)
Inductive Outcome (A : Type) :=
| Returned (v : A)
| Raised.
Arguments Returned {A} v.
Arguments Raised {A}.

(** The whole function.  [commit_ok] is the outcome of the single
    [db.session.commit()] at line 114: when it fails, lines 121-126 roll
    the session back and re-raise. *)
Definition update_team_total_points (commit_ok : bool) (db : DB) : Outcome (gmap Z Z) * DB :=
  match order_by match_date (matches db) with
  | [] => (Returned ∅, db)
  | ms =>
    match teams db with
    | [] => (Returned ∅, db)
    | ts =>
      let team_points := team_points_of db ms ts in
      if commit_ok then (Returned team_points, write_totals db team_points)
      else (Raised, db)
    end
  end.

(* ------------------------------------------------------------------ *)
(** ** [delete_game] ([admin_routes.py], lines 537-560) *)

(** Deleting a match through the session sets the [match_id] of its
    [roster_changes] (the [Match.roster_changes] backref) to NULL. *)
Definition unlink_match (game_id : Z) (h : TeamPlayerHistory) : TeamPlayerHistory :=
  match h_match_id h with
  | Some mid =>
    if mid =? game_id
    then mkHistory (h_team_id h) (h_player_id h) (action h) (change_date h) None
    else h
  | None => h
  end.

(** Lines 546-549: delete the game's performances and the game, commit. *)
Definition remove_game (game_id : Z) (db : DB) : DB :=
  mkDB (List.filter (fun m => negb (match_id m =? game_id)) (matches db))
       (teams db) (team_players db)
       (List.filter (fun p => negb (perf_match_id p =? game_id)) (performances db))
       (map (unlink_match game_id) (history db)) (player_ids db) [].

(** The HTTP status and the resulting database; [commit_ok] is the
    outcome of the recompute's commit. *)
Definition delete_game (commit_ok : bool) (game_id : Z) (db : DB) : Z * DB :=
  match List.find (fun m => match_id m =? game_id) (matches db) with
  | None => (404, db)
  | Some _ =>
    let db1 := remove_game game_id db in
    match update_team_total_points commit_ok db1 with
    | (Returned _, db2) => (200, db2)
    | (Raised, db2) => (500, db2)
    end
  end.

(* ------------------------------------------------------------------ *)
(** ** Per-team, per-match contributions *)

(** Line 58-60: the roster rows of [team], ordered by [added_date]. *)
Definition team_rows (db : DB) (team : Team) : list TeamPlayer :=
  order_by added_date (List.filter (fun tp => tp_team_id tp =? team_id team) (team_players db)).

(** What lines 86-102 add for one active roster row: its performance's
    points (doubled for a captain), or nothing. *)
Definition member_points (perfs : gmap Z PlayerPerformance) (tp : TeamPlayer) : Z :=
  match perfs !! tp_player_id tp with
  | Some performance =>
      match points performance with
      | Some p => captain_points tp p
      | None => 0
      end
  | None => 0
  end.

(** The amount lines 67-106 add to [team]'s entry for match [m]. *)
Definition team_match_points (db : DB) (team : Team) (m : Match) : Z :=
  match active_players (team_rows db team) (match_date m) with
  | [] => 0
  | act =>
    let '(match_points, match_players) :=
      match_tally (perf_dict (performances_for db (match_id m))) act in
    if (0 <? match_players)%nat then match_points else 0
  end.

Definition sumZ (l : list Z) : Z := fold_right Z.add 0 l.

(** The total the recompute derives for [team] over the matches [ms]. *)
Definition team_total (db : DB) (ms : list Match) (team : Team) : Z :=
  sumZ (map (team_match_points db team) ms).

(** The database without player [player_id]'s performance rows for match
    [mid]. *)
Definition drop_performances (db : DB) (player_id mid : Z) : DB :=
  mkDB (matches db) (teams db) (team_players db)
       (List.filter (fun p => negb ((perf_player_id p =? player_id) && (perf_match_id p =? mid)))
                    (performances db))
       (history db) (player_ids db) (unflushed db).

(** Python's [dict] comprehension keeps the last row of each key. *)
Fixpoint last_row {A} (l : list A) : option A :=
  match l with
  | [] => None
  | [x] => Some x
  | _ :: l' => last_row l'
  end.

(** Whether an active roster row counts as having played (line 102). *)
Definition played (perfs : gmap Z PlayerPerformance) (tp : TeamPlayer) : bool :=
  match perfs !! tp_player_id tp with
  | Some performance => match points performance with Some _ => true | None => false end
  | None => false
  end.

(* ------------------------------------------------------------------ *)
(** ** Roster changes: [TeamPlayer.add_player] and [remove_player]
       ([models.py], lines 85-140) *)

(** A query (or a commit) first flushes the session: pending objects
    become persistent. *)
Definition autoflush (db : DB) : DB :=
  mkDB (matches db) (teams db) (team_players db) (performances db) (history db)
       (player_ids db) [].

(** [db.session.commit()]: flush, then make durable. *)
Definition commit (db : DB) : DB := autoflush db.

Definition same_pair (team_id player_id : Z) (tp : TeamPlayer) : bool :=
  (tp_team_id tp =? team_id) && (tp_player_id tp =? player_id).

Definition is_pending_insert (team_id player_id : Z) (u : Pending) : bool :=
  match u with
  | PendingInsert t p => (t =? team_id) && (p =? player_id)
  | _ => false
  end.

Definition is_pending_removal (team_id player_id : Z) (u : Pending) : bool :=
  match u with
  | PendingRemoval t p => (t =? team_id) && (p =? player_id)
  | _ => false
  end.

Definition is_pending_history (u : Pending) : bool :=
  match u with PendingHistory => true | _ => false end.

(** The timestamps a flush at [now] gives to a roster row: a pending
    INSERT takes [added_date]'s default, and a pending [removed_date]
    expression its value. *)
Definition restamp_row (now : Z) (us : list Pending) (tp : TeamPlayer) : TeamPlayer :=
  if existsb (is_pending_insert (tp_team_id tp) (tp_player_id tp)) us
  then mkTeamPlayer (tp_team_id tp) (tp_player_id tp) (is_captain tp) now
                    (option_map (fun _ => now) (removed_date tp))
  else if existsb (is_pending_removal (tp_team_id tp) (tp_player_id tp)) us
  then mkTeamPlayer (tp_team_id tp) (tp_player_id tp) (is_captain tp) (added_date tp)
                    (option_map (fun _ => now) (removed_date tp))
  else tp.

Definition stamp_history (now : Z) (h : TeamPlayerHistory) : TeamPlayerHistory :=
  mkHistory (h_team_id h) (h_player_id h) (action h) now (h_match_id h).

(** The last [k] history rows are pending and take [change_date]'s
    default. *)
Definition restamp_history (now : Z) (k : nat) (hs : list TeamPlayerHistory)
    : list TeamPlayerHistory :=
  let n := (length hs - k)%nat in
  firstn n hs ++ map (stamp_history now) (skipn n hs).

(** Every call runs at its [now]: the flush that writes the session's
    pending changes (a query of this call, or the commit closing it) is
    no earlier than the call, so their timestamps are [now]'s. *)
Definition restamp (now : Z) (db : DB) : DB :=
  mkDB (matches db) (teams db)
       (map (restamp_row now (unflushed db)) (team_players db))
       (performances db)
       (restamp_history now (length (List.filter is_pending_history (unflushed db)))
                        (history db))
       (player_ids db) (unflushed db).

(** [.order_by(cls.added_date.desc()).first()]. *)
Definition latest_added (rows : list TeamPlayer) : option TeamPlayer :=
  head (order_by (fun tp => - added_date tp) rows).

(** Assigning [removed_date] on the row identified by its primary key. *)
Definition set_removed (team_id player_id : Z) (r : option Z) (tps : list TeamPlayer)
    : list TeamPlayer :=
  map (fun tp => if same_pair team_id player_id tp
                 then mkTeamPlayer (tp_team_id tp) (tp_player_id tp) (is_captain tp)
                                   (added_date tp) r
                 else tp) tps.

Definition with_roster (db : DB) (tps : list TeamPlayer) (hs : list TeamPlayerHistory)
    (pending : list Pending) : DB :=
  mkDB (matches db) (teams db) tps (performances db) hs (player_ids db) pending.

(** [TeamPlayer.add_player(team_id, player_id, is_captain, match_id)] at
    time [now].  Its first query flushes the session; a new row and the
    history row stay pending, their timestamps given by a later flush. *)
Definition add_player (now team_id player_id : Z) (is_captain : bool)
    (match_id : option Z) (db : DB) : TeamPlayer * DB :=
  let db := autoflush (restamp now db) in
  match List.find (fun tp => same_pair team_id player_id tp
                             && match removed_date tp with None => true | Some _ => false end)
                  (team_players db) with
  | Some existing => (existing, db)
  | None =>
    let previous := latest_added (List.filter (same_pair team_id player_id) (team_players db)) in
    let '(player_assoc, tps, pending) :=
      match previous with
      | Some prev =>
        match removed_date prev with
        | Some _ =>
          (match prev with mkTeamPlayer t p c a _ => mkTeamPlayer t p c a None end,
           set_removed team_id player_id None (team_players db), unflushed db)
        | None =>
          let row := mkTeamPlayer team_id player_id is_captain now None in
          (row, team_players db ++ [row], unflushed db ++ [PendingInsert team_id player_id])
        end
      | None =>
        let row := mkTeamPlayer team_id player_id is_captain now None in
        (row, team_players db ++ [row], unflushed db ++ [PendingInsert team_id player_id])
      end in
    (player_assoc,
     with_roster db tps (history db ++ [mkHistory team_id player_id "add" now match_id])
                 (pending ++ [PendingHistory]))
  end.

(** [tp.remove_player(match_id)] at time [now] on the row with key
    [(team_id, player_id)].  The history row is only added when the object
    is persistent, i.e. not pending in the session. *)
Definition remove_player (now team_id player_id : Z) (match_id : option Z) (db : DB) : DB :=
  let db := restamp now db in
  let tps := set_removed team_id player_id (Some now) (team_players db) in
  let persistent := negb (existsb (is_pending_insert team_id player_id) (unflushed db)) in
  let '(hs, hist_pending) :=
    if persistent
    then (history db ++ [mkHistory team_id player_id "remove" now match_id], [PendingHistory])
    else (history db, []) in
  with_roster db tps hs (unflushed db ++ PendingRemoval team_id player_id :: hist_pending).

(** The roster rows and the logged actions of one [(team, player)] pair. *)
Definition pair_rows (db : DB) (team_id player_id : Z) : list TeamPlayer :=
  List.filter (same_pair team_id player_id) (team_players db).

Definition pair_log (db : DB) (team_id player_id : Z) : list TeamPlayerHistory :=
  List.filter (fun h => (h_team_id h =? team_id) && (h_player_id h =? player_id)) (history db).

Definition pair_history (db : DB) (team_id player_id : Z) : list string :=
  map action (List.filter (fun h => (h_team_id h =? team_id) && (h_player_id h =? player_id))
                          (history db)).

(* ------------------------------------------------------------------ *)
(** ** Validation in [add_match_performance] ([admin_routes.py], lines 276-330) *)

(** JSON values as Python sees them after [request.get_json()]. *)
Inductive pyval :=
| VInt (z : Z)
| VFloat (q : Q)
| VBool (b : bool)
| VStr (s : string)
| VNull.

Definition truthy (v : pyval) : bool :=
  match v with
  | VInt z => negb (z =? 0)
  | VFloat q => negb (Qeq_bool q 0)
  | VBool b => b
  | VStr EmptyString => false
  | VStr _ => true
  | VNull => false
  end.

(** [isinstance(value, (int, float))]; [bool] is a subclass of [int]. *)
Definition is_number (v : pyval) : bool :=
  match v with VInt _ | VFloat _ | VBool _ => true | _ => false end.

(** [value < 0] on a number ([False < 0] is false). *)
Definition lt_zero (v : pyval) : bool :=
  match v with
  | VInt z => z <? 0
  | VFloat q => negb (Qle_bool 0 q)
  | _ => false
  end.

(** One element of [players_performance]: each key is absent ([None]) or
    present with a value. *)
Record PerfEntry := mkEntry {
  pe_player_id : option pyval;
  pe_goals : option pyval;
  pe_assists : option pyval;
  pe_clean_sheet : option pyval;
  pe_goals_conceded : option pyval;
  pe_yellow_cards : option pyval;
  pe_red_cards : option pyval;
  pe_minutes_played : option pyval;
  pe_bonus_points : option pyval
}.

Inductive JEntry :=
| JObject (e : PerfEntry)
| JNonObject.

(** Lines 312-321: the [stats] dict, in insertion order. *)
Definition stats_of (e : PerfEntry) : list (string * pyval) :=
  [("goals", default (VInt 0) (pe_goals e));
   ("assists", default (VInt 0) (pe_assists e));
   ("clean_sheet", VBool (truthy (default (VBool false) (pe_clean_sheet e))));
   ("goals_conceded", default (VInt 0) (pe_goals_conceded e));
   ("yellow_cards", default (VInt 0) (pe_yellow_cards e));
   ("red_cards", default (VInt 0) (pe_red_cards e));
   ("minutes_played", default (VInt 0) (pe_minutes_played e));
   ("bonus_points", default (VInt 0) (pe_bonus_points e))]%string.

(** Line 325: [stat != 'clean_sheet' and not isinstance(value, (int, float))
    or value < 0]; [value < 0] is only reached on numbers and booleans. *)
Definition stat_invalid (sv : string * pyval) : bool :=
  let '(stat, value) := sv in
  (negb (String.eqb stat "clean_sheet") && negb (is_number value)) || lt_zero value.

(** Line 299: [not player_id or not isinstance(player_id, int)] fails on
    [None], on falsy values and on non-integers; [True] is the integer 1. *)
Definition player_id_key (v : option pyval) : option Z :=
  match v with
  | Some (VInt z) => if z =? 0 then None else Some z
  | Some (VBool true) => Some 1
  | _ => None
  end.

Inductive Validation :=
| VError (status : Z)
| VOk (valid : list (Z * list (string * pyval))).

(** Lines 294-328: the loop over [players_performance]; [seen] is the
    [player_ids] set and [player_exists] is [Player.query.get]. *)
Fixpoint validate_entries (player_exists : Z -> bool) (seen : list Z) (es : list JEntry)
    : Validation :=
  match es with
  | [] => VOk []
  | JNonObject :: _ => VError 400
  | JObject e :: es' =>
    match player_id_key (pe_player_id e) with
    | None => VError 400
    | Some pid =>
      if existsb (Z.eqb pid) seen then VError 400
      else if negb (player_exists pid) then VError 404
      else if existsb stat_invalid (stats_of e) then VError 400
      else match validate_entries player_exists (pid :: seen) es' with
           | VError c => VError c
           | VOk vs => VOk ((pid, stats_of e) :: vs)
           end
    end
  end.

(** The request body; [rq_is_dict] is [data and isinstance(data, dict)],
    [rq_players_performance] is [None] when the value is not a list (an
    absent key gives the default [[]]). *)
Record PerfRequest := mkRequest {
  rq_is_dict : bool;
  rq_match_id : option pyval;
  rq_match_name : option string;
  rq_match_date : option string;
  rq_players_performance : option (list JEntry)
}.

Section AddMatchPerformance.
(** Lines 330-456, run once validation has passed: match lookup or
    creation, the performance upserts, the commit and the recompute.
    It is a parameter: the properties below hold whatever it does. *)
Variable process_valid : PerfRequest -> list (Z * list (string * pyval)) -> DB -> Z * DB.

(** The HTTP status and the resulting database. *)
Definition add_match_performance (req : PerfRequest) (db : DB) : Z * DB :=
  if negb (rq_is_dict req) then (400, db) else
  match rq_players_performance req with
  | None | Some [] => (400, db)
  | Some es =>
    match validate_entries (fun pid => existsb (Z.eqb pid) (player_ids db)) [] es with
    | VError c => (c, db)
    | VOk vs => process_valid req vs db
    end
  end.
End AddMatchPerformance.

(** The seven numeric stats of an entry, as submitted. *)
Definition numeric_fields (e : PerfEntry) : list (option pyval) :=
  [pe_goals e; pe_assists e; pe_goals_conceded e; pe_yellow_cards e;
   pe_red_cards e; pe_minutes_played e; pe_bonus_points e].

(** The [player_id] line 299 accepts for an element of
    [players_performance], if any. *)
Definition entry_key (j : JEntry) : option Z :=
  match j with
  | JObject e => player_id_key (pe_player_id e)
  | JNonObject => None
  end.

(** An entry giving only a [player_id]. *)
Definition no_stats (pid : pyval) : PerfEntry :=
  mkEntry (Some pid) None None None None None None None None.

(* ------------------------------------------------------------------ *)
(** ** [reset_player_points] ([admin_routes.py], lines 130-153) *)

(** Lines 136-145: 404 for an unknown player; otherwise delete the
    player's performance rows, commit, and recompute.  [commit_ok] is the
    outcome of the recompute's commit; a failure there is caught by lines
    148-153, which roll back (nothing is pending any more) and answer 500. *)
Definition reset_player_points (commit_ok : bool) (player_id : Z) (db : DB) : Z * DB :=
  if negb (existsb (Z.eqb player_id) (player_ids db)) then (404, db) else
  let db1 := commit (mkDB (matches db) (teams db) (team_players db)
                          (List.filter (fun p => negb (perf_player_id p =? player_id))
                                       (performances db))
                          (history db) (player_ids db) (unflushed db)) in
  match update_team_total_points commit_ok db1 with
  | (Returned _, db2) => (200, db2)
  | (Raised, db2) => (500, db2)
  end.

(* ------------------------------------------------------------------ *)
(** ** [get_all_players_with_points] ([admin_routes.py], lines 155-200) *)

(** [PlayerPerformance.query.filter_by(player_id=...)], in table order. *)
Definition player_rows (db : DB) (player_id : Z) : list PlayerPerformance :=
  List.filter (fun p => perf_player_id p =? player_id) (performances db).

(** SQL [SUM]: NULLs are skipped; no non-NULL value gives NULL. *)
Definition sql_sum (l : list (option Z)) : option Z :=
  fold_left (fun acc o => match o with
                          | None => acc
                          | Some z => Some (default 0 acc + z)
                          end) l None.

(** Lines 164-165 and 177: [total_points or 0]. *)
Definition player_total_points (db : DB) (player_id : Z) : Z :=
  default 0 (sql_sum (map points (player_rows db player_id))).

(** Lines 168-170: [.order_by(match_id.desc(), id.desc()).first()]; rows
    are stored in increasing [id] order, so the reversed table lists equal
    [match_id]s by decreasing [id] and the stable sort keeps that. *)
Definition latest_performance (db : DB) (player_id : Z) : option PlayerPerformance :=
  head (order_by (fun p => - perf_match_id p) (rev (player_rows db player_id))).

(* ------------------------------------------------------------------ *)
(** ** Points while on the team in [get_user_team] ([admin_routes.py],
       lines 664-753) *)

(** Lines 692-700: some roster row of the pair is active at [d]. *)
Definition was_on_team (db : DB) (team_id player_id d : Z) : bool :=
  existsb (fun tp => same_pair team_id player_id tp && is_active tp d) (team_players db).

(** Lines 704-707: [PlayerPerformance.query.filter_by(player_id=..., match_id=...).first()]. *)
Definition first_performance (db : DB) (player_id mid : Z) : option PlayerPerformance :=
  List.find (fun p => (perf_player_id p =? player_id) && (perf_match_id p =? mid))
            (performances db).

(** Lines 690-713: [total_points_while_on_team] of the roster row [tp],
    over the matches [ms] ordered by date. *)
Definition points_while_on_team (db : DB) (ms : list Match) (team_id : Z) (tp : TeamPlayer) : Z :=
  fold_left (fun player_points m =>
      if was_on_team db team_id (tp_player_id tp) (match_date m) then
        match first_performance db (tp_player_id tp) (match_id m) with
        | Some performance =>
            let pts := default 0 (points performance) in
            player_points + (if is_captain tp then pts * 2 else pts)
        | None => player_points
        end
      else player_points) ms 0.

(** Lines 685-724: the [all_players] list of [team] (its roster rows, in
    table order, whose player exists) with their points. *)
Definition user_team_points (db : DB) (team : Team) : list (TeamPlayer * Z) :=
  let ms := order_by match_date (matches db) in
  map (fun tp => (tp, points_while_on_team db ms (team_id team) tp))
      (List.filter (fun tp => existsb (Z.eqb (tp_player_id tp)) (player_ids db))
                   (List.filter (fun tp => tp_team_id tp =? team_id team) (team_players db))).

(* ------------------------------------------------------------------ *)
(** ** [AppSettings] ([models.py], lines 175-207) and the team-updates lock
       ([admin_routes.py], lines 562-607) *)

Record AppSetting := mkSetting {
  setting_key : string;
  setting_value : string;
  description : option string
}.

(** [AppSettings.get_setting(key, default)] with a string [default] (the
    only way the routes call it). *)
Definition get_setting (settings : list AppSetting) (key : string) (default : string) : string :=
  match List.find (fun s => String.eqb (setting_key s) key) settings with
  | Some setting => setting_value setting
  | None => default
  end.

(** Lines 196-199: the first row with the key gets the new value, and the
    new description unless it is [None]. *)
Fixpoint update_setting (key value : string) (descr : option string) (l : list AppSetting)
    : list AppSetting :=
  match l with
  | [] => []
  | s :: l' =>
    if String.eqb (setting_key s) key
    then mkSetting (setting_key s) value
                   (match descr with Some d => Some d | None => description s end) :: l'
    else s :: update_setting key value descr l'
  end.

(** [AppSettings.set_setting(key, value, description)] with a string
    [value] ([str(value)] is then [value]), followed by its commit. *)
Definition set_setting (settings : list AppSetting) (key value : string) (descr : option string)
    : list AppSetting :=
  match List.find (fun s => String.eqb (setting_key s) key) settings with
  | Some _ => update_setting key value descr settings
  | None => settings ++ [mkSetting key value descr]
  end.

(** [str.lower] on Latin-1 characters: [A-Z] and [À-Þ] except
    [×] move down by 32. *)
Definition lower_char (c : Ascii.ascii) : Ascii.ascii :=
  let n := Ascii.nat_of_ascii c in
  if ((65 <=? n) && (n <=? 90))%nat || ((192 <=? n) && (n <=? 222) && negb (n =? 215))%nat
  then Ascii.ascii_of_nat (n + 32) else c.

Fixpoint lower (s : string) : string :=
  match s with
  | EmptyString => EmptyString
  | String c s' => String (lower_char c) (lower s')
  end.

(** Lines 570 and 589: [get_setting('team_updates_locked', 'false').lower() == 'true']. *)
Definition get_team_updates_status (settings : list AppSetting) : bool :=
  String.eqb (lower (get_setting settings "team_updates_locked" "false")) "true".

(** Lines 587-602: the new lock state (the [updates_locked] of the
    response) and the settings table. *)
Definition toggle_team_updates (settings : list AppSetting) : bool * list AppSetting :=
  let current_value := get_team_updates_status settings in
  let new_value := negb current_value in
  (new_value,
   set_setting settings "team_updates_locked" (if new_value then "true" else "false")
               (Some "Whether team updates are locked (true/false)")).

(* ------------------------------------------------------------------ *)
(** ** [NewsContent] ([models.py], lines 226-246) *)

Record News := mkNews {
  news_id : Z;
  content : string;
  updated_at : Z
}.

(** [order_by(updated_at.desc()).first()]. *)
Definition get_latest (news : list News) : option string :=
  option_map content (head (order_by (fun n => - updated_at n) news)).

(** [set_latest(content_json)] at time [now]: [cls.query.first()] is the
    first row in table order.  Assigning an equal value records no change,
    so neither an UPDATE nor the [onupdate] timestamp happens then; a new
    row gets id [fresh_id] and the default timestamp [now]. *)
Definition set_latest (now fresh_id : Z) (content_json : string) (news : list News)
    : list News :=
  match news with
  | n :: rest =>
    if String.eqb (content n) content_json then news
    else mkNews (news_id n) content_json now :: rest
  | [] => [mkNews fresh_id content_json now]
  end.

(* ------------------------------------------------------------------ *)
(** ** [delete_user] ([admin_routes.py], lines 755-802) *)

Record User := mkUser {
  user_id : Z;
  email : string
}.

(** Users, the [Team.user_id] column as [(team id, user id)] pairs, and
    the rest of the database. *)
Record Accounts := mkAccounts {
  users : list User;
  team_owner : list (Z * Z);
  league_db : DB
}.

(** Line 765: [str(request.user.get('email', '')).lower() ==
    'grandslam@doonschool.com']; [str] of a non-string JSON value (a
    number, a boolean, [None]) has no [@], so only a string can match. *)
Definition is_grandslam_email (v : option pyval) : bool :=
  match v with
  | Some (VStr s) => String.eqb (lower s) "grandslam@doonschool.com"
  | _ => false
  end.

(** Line 770: [is_admin is True or is_admin == 1 or str(is_admin).lower() == 'true']. *)
Definition admin_flag (v : option pyval) : bool :=
  match v with
  | Some (VBool b) => b
  | Some (VInt z) => z =? 1
  | Some (VFloat q) => Qeq_bool q 1
  | Some (VStr s) => String.eqb (lower s) "true"
  | _ => false
  end.

(** Line 783: [request.user.get('user_id') == user.id] on a JSON value. *)
Definition py_eq_int (v : option pyval) (z : Z) : bool :=
  match v with
  | Some (VInt x) => x =? z
  | Some (VBool b) => (if b then 1 else 0) =? z
  | Some (VFloat q) => Qeq_bool q (inject_Z z)
  | _ => false
  end.

(** The route body; [commit_ok] is the outcome of the commit at line 795
    (a failure is rolled back by lines 800-802). *)
Definition delete_user (commit_ok : bool) (req_email req_is_admin req_user_id : option pyval)
    (target : Z) (acc : Accounts) : Z * Accounts :=
  if negb (is_grandslam_email req_email && admin_flag req_is_admin) then (403, acc) else
  match List.find (fun u => user_id u =? target) (users acc) with
  | None => (404, acc)
  | Some user =>
    if py_eq_int req_user_id (user_id user) then (403, acc) else
    if negb commit_ok then (500, acc) else
    let db := league_db acc in
    let '(owners, db') :=
      match List.find (fun '(_, uid) => uid =? user_id user) (team_owner acc) with
      | Some (tid, _) =>
        (List.filter (fun '(t, _) => negb (t =? tid)) (team_owner acc),
         mkDB (matches db) (List.filter (fun t => negb (team_id t =? tid)) (teams db))
              (List.filter (fun tp => negb (tp_team_id tp =? tid)) (team_players db))
              (performances db) (history db) (player_ids db) [])
      | None => (team_owner acc, commit db)
      end in
    (200, mkAccounts (List.filter (fun u => negb (user_id u =? user_id user)) (users acc))
                     owners db')
  end.

(* ------------------------------------------------------------------ *)
(** ** [create_game] ([admin_routes.py], lines 216-247) *)

Section CreateGame.
(** [datetime.fromisoformat], partial. *)
Variable fromisoformat : string -> option Z.

(** The body for a JSON object whose [name] and [date] are strings or
    absent; [fresh_id] is the id the insert assigns. *)
Definition create_game (fresh_id : Z) (name date_str : option string) (db : DB) : Z * DB :=
  match name, date_str with
  | Some (String _ _ as n), Some (String _ _ as d) =>
    if existsb (fun m => String.eqb (match_name m) n) (matches db) then (409, db) else
    match fromisoformat d with
    | None => (400, db)
    | Some match_date =>
      (201, commit (mkDB (matches db ++ [mkMatch fresh_id n match_date]) (teams db)
                         (team_players db) (performances db) (history db) (player_ids db)
                         (unflushed db)))
    end
  | _, _ => (400, db)
  end.
End CreateGame.

(* ------------------------------------------------------------------ *)
(** ** A small league, after the scenario of the design notes *)

Definition day (n : Z) : Z := n * 86400.

Definition league : DB :=
  mkDB [mkMatch 1 "M1" (day 5); mkMatch 2 "M2" (day 15)]
       [mkTeam 1 "A" 0]
       [mkTeamPlayer 1 10 true (day 1) None;
        mkTeamPlayer 1 11 false (day 1) (Some (day 10))]
       [mkPerformance 10 1 (Some 6); mkPerformance 11 1 (Some 4);
        mkPerformance 10 2 (Some 3); mkPerformance 11 2 (Some 10)]
       [] [10; 11] [].

(** The same league with its stored total up to date. *)
Definition league_synced : DB :=
  mkDB (matches league) [mkTeam 1 "A" 22] (team_players league) (performances league)
       [] [10; 11] [].

(** Its first match alone, with the stored total up to date. *)
Definition league_last_match : DB :=
  mkDB [mkMatch 1 "M1" (day 5)] [mkTeam 1 "A" 16] (team_players league)
       (performances league) [] [10; 11] [].

(* ------------------------------------------------------------------ *)
(** ** Structural lemmas *)

Example league_m1 : team_match_points league (mkTeam 1 "A" 0) (mkMatch 1 "M1" (day 5)) = 16.
Proof. reflexivity. Qed.

Example league_m2 : team_match_points league (mkTeam 1 "A" 0) (mkMatch 2 "M2" (day 15)) = 6.
Proof. reflexivity. Qed.

Example league_recompute :
  fst (update_team_total_points true league) = Returned {[1 := 22]}.
Proof. vm_compute. reflexivity. Qed.


Lemma insert_by_perm {A} (key : A -> Z) x l :
  Permutation (insert_by key x l) (x :: l).
Proof.
  induction l as [|y l IH]; simpl; [reflexivity|].
  destruct (key y <=? key x); [|reflexivity].
  rewrite IH. apply perm_swap.
Qed.

Lemma order_by_perm {A} (key : A -> Z) l : Permutation (order_by key l) l.
Proof.
  unfold order_by.
  assert (H : forall acc, Permutation (fold_left (fun acc x => insert_by key x acc) l acc)
                                      (l ++ acc)).
  { induction l as [|x l IH]; intros acc; simpl; [reflexivity|].
    rewrite IH, insert_by_perm. symmetry. apply Permutation_middle. }
  rewrite H, app_nil_r. reflexivity.
Qed.

Lemma order_by_nil {A} (key : A -> Z) l : order_by key l = [] <-> l = [].
Proof.
  split; intros H.
  - pose proof (order_by_perm key l) as P. rewrite H in P.
    now apply Permutation_nil in P.
  - now subst.
Qed.

Lemma sumZ_perm l l' : Permutation l l' -> sumZ l = sumZ l'.
Proof. induction 1; simpl; lia. Qed.

Lemma sumZ_app l l' : sumZ (l ++ l') = sumZ l + sumZ l'.
Proof. induction l; simpl; lia. Qed.

Lemma team_total_order_by db ms team :
  team_total db (order_by match_date ms) team = team_total db ms team.
Proof.
  unfold team_total. apply sumZ_perm, Permutation_map, order_by_perm.
Qed.

Lemma match_performances_lookup db ms m :
  In m ms ->
  match_performances db ms !! match_id m = Some (perf_dict (performances_for db (match_id m))).
Proof.
  unfold match_performances.
  set (F := fun k => perf_dict (performances_for db k)).
  change (perf_dict (performances_for db (match_id m))) with (F (match_id m)).
  assert (H : forall (ms : list Match) (d : gmap Z (gmap Z PlayerPerformance)),
             d !! match_id m = Some (F (match_id m)) \/ In m ms ->
             fold_left (fun d m => <[match_id m := F (match_id m)]> d) ms d !! match_id m
             = Some (F (match_id m))).
  { intros l; induction l as [|m' l IH]; intros d Hd; simpl.
    - destruct Hd as [Hd|[]]; exact Hd.
    - apply IH. destruct Hd as [Hd|[<-|Hin]]; [| |now right].
      + left. destruct (decide (match_id m' = match_id m)) as [E|E].
        * rewrite E, lookup_insert_eq. reflexivity.
        * rewrite lookup_insert_ne by exact E. exact Hd.
      + left. apply lookup_insert_eq. }
  intros Hin. apply H. now right.
Qed.

Lemma fold_insert_lookup {X V} (key : X -> Z) (g : Z -> V) (l : list X)
    (d : gmap Z V) (y : X) :
  In y l ->
  fold_left (fun d x => <[key x := g (key x)]> d) l d !! key y = Some (g (key y)).
Proof.
  assert (H : forall (l : list X) (d : gmap Z V),
             d !! key y = Some (g (key y)) \/ In y l ->
             fold_left (fun d x => <[key x := g (key x)]> d) l d !! key y
             = Some (g (key y))).
  { intros l0; induction l0 as [|x l0 IH]; intros d0 Hd; simpl.
    - destruct Hd as [Hd|[]]; exact Hd.
    - apply IH. destruct Hd as [Hd|[<-|Hin]]; [| |now right].
      + left. destruct (decide (key x = key y)) as [E|E].
        * rewrite E, lookup_insert_eq. reflexivity.
        * rewrite lookup_insert_ne by exact E. exact Hd.
      + left. apply lookup_insert_eq. }
  intros Hin. apply H. now right.
Qed.

Lemma last_row_cons {A} (x : A) l :
  last_row (x :: l) = match last_row l with Some y => Some y | None => Some x end.
Proof.
  revert x. induction l as [|a l IH]; intros x; [reflexivity|].
  change (last_row (x :: a :: l)) with (last_row (a :: l)).
  rewrite IH. destruct (last_row l); reflexivity.
Qed.

(** The dict comprehension keeps, for each player, the last row. *)
Lemma perf_dict_lookup (ps : list PlayerPerformance) (k : Z) :
  perf_dict ps !! k = last_row (List.filter (fun p => perf_player_id p =? k) ps).
Proof.
  unfold perf_dict.
  assert (H : forall (d : gmap Z PlayerPerformance),
    fold_left (fun d p => <[perf_player_id p := p]> d) ps d !! k
    = match last_row (List.filter (fun p => perf_player_id p =? k) ps) with
      | Some r => Some r | None => d !! k end).
  { induction ps as [|p ps IH]; intros d; simpl; [reflexivity|].
    rewrite IH. destruct (perf_player_id p =? k) eqn:E.
    - apply Z.eqb_eq in E. rewrite last_row_cons.
      destruct (last_row _); [reflexivity|]. subst. apply lookup_insert_eq.
    - apply Z.eqb_neq in E. destruct (last_row _); [reflexivity|].
      apply lookup_insert_ne. exact E. }
  rewrite H. destruct (last_row _); reflexivity.
Qed.

Lemma match_tally_fold perfs act mp mc :
  fold_left (fun '(mp, mc) tp =>
      match perfs !! tp_player_id tp with
      | Some performance =>
          match points performance with
          | Some p => (mp + captain_points tp p, S mc)
          | None => (mp, mc)
          end
      | None => (mp, mc)
      end) act (mp, mc)
  = (mp + sumZ (map (member_points perfs) act),
     (mc + length (List.filter (played perfs) act))%nat).
Proof.
  revert mp mc. induction act as [|tp act IH]; intros mp mc; simpl.
  - f_equal; lia.
  - destruct (perfs !! tp_player_id tp) as [perf|] eqn:E;
      [destruct (points perf) as [p|] eqn:P|]; rewrite IH.
    + replace (member_points perfs tp) with (captain_points tp p)
        by (unfold member_points; rewrite E, P; reflexivity).
      replace (played perfs tp) with true by (unfold played; rewrite E, P; reflexivity).
      simpl. f_equal; lia.
    + replace (member_points perfs tp) with 0
        by (unfold member_points; rewrite E, P; reflexivity).
      replace (played perfs tp) with false by (unfold played; rewrite E, P; reflexivity).
      f_equal; lia.
    + replace (member_points perfs tp) with 0
        by (unfold member_points; rewrite E; reflexivity).
      replace (played perfs tp) with false by (unfold played; rewrite E; reflexivity).
      f_equal; lia.
Qed.

Lemma sumZ_unplayed perfs act :
  List.filter (played perfs) act = [] -> sumZ (map (member_points perfs) act) = 0.
Proof.
  induction act as [|tp act IH]; simpl; [reflexivity|].
  destruct (perfs !! tp_player_id tp) as [perf|] eqn:E;
    [destruct (points perf) as [p|] eqn:P|].
  - replace (played perfs tp) with true by (unfold played; rewrite E, P; reflexivity).
    discriminate.
  - replace (played perfs tp) with false by (unfold played; rewrite E, P; reflexivity).
    replace (member_points perfs tp) with 0
      by (unfold member_points; rewrite E, P; reflexivity).
    intros H. rewrite IH by exact H. reflexivity.
  - replace (played perfs tp) with false by (unfold played; rewrite E; reflexivity).
    replace (member_points perfs tp) with 0
      by (unfold member_points; rewrite E; reflexivity).
    intros H. rewrite IH by exact H. reflexivity.
Qed.

(** A match adds to a team the sum of its active rows' points. *)
Lemma team_match_points_sum db team m :
  team_match_points db team m =
  sumZ (map (member_points (perf_dict (performances_for db (match_id m))))
            (active_players (team_rows db team) (match_date m))).
Proof.
  unfold team_match_points.
  destruct (active_players (team_rows db team) (match_date m)) as [|a act]; [reflexivity|].
  unfold match_tally. rewrite match_tally_fold.
  set (perfs := perf_dict _).
  destruct (List.filter (played perfs) (a :: act)) eqn:E.
  - simpl. pose proof (sumZ_unplayed perfs (a :: act) E) as H. simpl in H. lia.
  - simpl. lia.
Qed.

Section ProcessTeam.
Variables (db : DB) (ms : list Match) (mperfs : gmap Z (gmap Z PlayerPerformance)).
Hypothesis mperfs_ok : forall m, In m ms ->
  mperfs !! match_id m = Some (perf_dict (performances_for db (match_id m))).

Lemma team_total_no_rows team :
  team_rows db team = [] -> team_total db ms team = 0.
Proof.
  intros E. unfold team_total, team_match_points. rewrite E.
  generalize ms. intros l. induction l as [|m l IH]; [reflexivity|].
  simpl in *. exact IH.
Qed.

Lemma process_team_same (acc : gmap Z Z) (team : Team) (v : Z) :
  acc !! team_id team = Some v ->
  process_team ms mperfs (team_players db) acc team !! team_id team
  = Some (v + team_total db ms team).
Proof.
  intros Hv. unfold process_team. fold (team_rows db team).
  destruct (team_rows db team) as [|r rs] eqn:E.
  - rewrite team_total_no_rows by exact E. rewrite Z.add_0_r. exact Hv.
  - unfold team_total, team_match_points. rewrite E.
    assert (G : forall ms', (forall m, In m ms' -> In m ms) ->
      forall (acc : gmap Z Z) (v : Z), acc !! team_id team = Some v ->
      fold_left (fun acc m =>
        match active_players (r :: rs) (match_date m) with
        | [] => acc
        | act =>
          let performances := default ∅ (mperfs !! match_id m) in
          let '(match_points, match_players) := match_tally performances act in
          if (0 <? match_players)%nat
          then <[team_id team := (acc !!! team_id team) + match_points]> acc
          else acc
        end) ms' acc !! team_id team
      = Some (v + sumZ (map (fun m => match active_players (r :: rs) (match_date m) with
        | [] => 0
        | act =>
          let '(match_points, match_players) :=
            match_tally (perf_dict (performances_for db (match_id m))) act in
          if (0 <? match_players)%nat then match_points else 0
        end) ms'))).
    { intros ms' Hsub. induction ms' as [|m ms' IH]; intros acc0 v0 Hv0;
        cbn -[active_players match_tally perf_dict performances_for sumZ].
      - rewrite Z.add_0_r. exact Hv0.
      - rewrite (mperfs_ok m) by (apply Hsub; now left).
        cbn -[active_players match_tally perf_dict performances_for sumZ].
        change (sumZ (?x :: ?l)) with (x + sumZ l).
        destruct (active_players (r :: rs) (match_date m)) as [|a act].
        + rewrite IH with (v := v0).
          -- f_equal; rewrite ?Z.add_assoc, ?Z.add_0_r; reflexivity.
          -- intros; apply Hsub; now right.
          -- exact Hv0.
        + destruct (match_tally _ _) as [mp [|mc]].
          * rewrite IH with (v := v0).
            -- f_equal; rewrite ?Z.add_assoc, ?Z.add_0_r; reflexivity.
            -- intros; apply Hsub; now right.
            -- exact Hv0.
          * rewrite IH with (v := v0 + mp).
            -- f_equal; rewrite ?Z.add_assoc, ?Z.add_0_r; reflexivity.
            -- intros; apply Hsub; now right.
            -- rewrite lookup_insert_eq. f_equal. f_equal.
               apply lookup_total_correct. exact Hv0. }
    exact (G ms (fun m H => H) acc v Hv).
Qed.

Lemma process_team_other (acc : gmap Z Z) (team : Team) (k : Z) :
  k <> team_id team ->
  process_team ms mperfs (team_players db) acc team !! k = acc !! k.
Proof.
  intros Hk. unfold process_team.
  destruct (order_by added_date _) as [|r rs]; [reflexivity|].
  generalize acc. generalize ms. intros l.
  induction l as [|m l IH]; intros acc0; [reflexivity|].
  cbn -[active_players match_tally].
  destruct (active_players (r :: rs) (match_date m)) as [|a act]; [apply IH|].
  destruct (match_tally _ _) as [mp [|mc]]; [apply IH|].
  rewrite IH. apply lookup_insert_ne. congruence.
Qed.
End ProcessTeam.

Lemma fold_process_other db ms mperfs (ts : list Team) (acc : gmap Z Z) (k : Z) :
  k ∉ map team_id ts ->
  fold_left (process_team ms mperfs (team_players db)) ts acc !! k = acc !! k.
Proof.
  revert acc. induction ts as [|t ts IH]; intros acc Hk; simpl; [reflexivity|].
  rewrite IH by (intros H; apply Hk; now right).
  apply process_team_other. intros E. apply Hk. rewrite E. now left.
Qed.

(** With distinct team ids (the primary key), the dict entry of a team
    is its derived total over the sorted matches. *)
Lemma team_points_of_lookup db ms (ts : list Team) (team : Team) :
  NoDup (map team_id ts) -> In team ts ->
  team_points_of db ms ts !! team_id team = Some (team_total db ms team).
Proof.
  intros Hnd Hin. unfold team_points_of.
  assert (Hinit : fold_left (fun d t => <[team_id t := 0]> d) ts (∅ : gmap Z Z)
                   !! team_id team = Some 0)
    by exact (fold_insert_lookup team_id (fun _ => 0) ts ∅ team Hin).
  revert Hinit. generalize (fold_left (fun d t => <[team_id t := 0]> d) ts (∅ : gmap Z Z)).
  induction ts as [|t ts IH]; intros acc Hacc; [destruct Hin|].
  simpl. inversion Hnd as [|? ? Hnotin Hnd']; subst.
  destruct Hin as [->|Hin].
  - rewrite fold_process_other by exact Hnotin.
    rewrite (process_team_same db ms) with (v := 0) by
      (exact Hacc || (intros m Hm; apply match_performances_lookup; exact Hm)).
    reflexivity.
  - apply IH; [exact Hnd'|exact Hin|].
    rewrite process_team_other; [exact Hacc|].
    intros E. apply Hnotin. rewrite <- E. apply list_elem_of_In, in_map. exact Hin.
Qed.

(** The recompute, when there is at least one match and one team. *)
Lemma update_team_total_points_run ok db :
  matches db <> [] -> teams db <> [] ->
  update_team_total_points ok db =
  let tpts := team_points_of db (order_by match_date (matches db)) (teams db) in
  if ok then (Returned tpts, write_totals db tpts) else (Raised, db).
Proof.
  intros Hm Ht. unfold update_team_total_points.
  destruct (order_by match_date (matches db)) as [|m ms] eqn:E.
  - apply order_by_nil in E. contradiction.
  - destruct (teams db) as [|t ts]; [contradiction|]. reflexivity.
Qed.

Lemma In_team_rows db team tp :
  In tp (team_players db) -> tp_team_id tp = team_id team -> In tp (team_rows db team).
Proof.
  intros Hin Ht. unfold team_rows.
  apply (Permutation_in _ (Permutation_sym (order_by_perm added_date _))).
  apply filter_In. split; [exact Hin|]. apply Z.eqb_eq. exact Ht.
Qed.

Lemma fold_left_map_comm {A B C} (g : C -> B -> C) (f : A -> B) (l : list A) (c : C) :
  fold_left g (map f l) c = fold_left (fun c x => g c (f x)) l c.
Proof. revert c. induction l as [|x l IH]; intros c; simpl; [reflexivity|]. apply IH. Qed.

(** The staged totals are only read back through [team_id]. *)
Lemma team_points_of_write_totals db ms tpts :
  team_points_of (write_totals db tpts) ms (teams (write_totals db tpts))
  = team_points_of db ms (teams db).
Proof.
  unfold team_points_of. simpl. rewrite !fold_left_map_comm. reflexivity.
Qed.

(* ------------------------------------------------------------------ *)
(** ** Claims about the recompute *)

(** C1: during the recompute, a roster membership is active for a match
    at timestamp [t] iff [added_date <= t] and [removed_date] is null or
    strictly after [t]; so [added_date = t] counts as active and
    [removed_date = t] as inactive. *)
Theorem active_players_iff (tps : list TeamPlayer) (tp : TeamPlayer) (t : Z) :
  (In tp (active_players tps t) <->
   In tp tps /\ added_date tp <= t /\
   (removed_date tp = None \/ exists r, removed_date tp = Some r /\ r > t)) /\
  (added_date tp = t -> removed_date tp = None -> is_active tp t = true) /\
  (removed_date tp = Some t -> is_active tp t = false).
Proof.
  unfold active_players, is_active. split; [|split].
  - rewrite filter_In, andb_true_iff, Z.leb_le.
    destruct (removed_date tp) as [r|].
    + rewrite Z.ltb_lt. split.
      * intros (H1 & H2 & H3). repeat split; [exact H1|exact H2|].
        right. exists r. split; [reflexivity|lia].
      * intros (H1 & H2 & [H3|(r' & H3 & H4)]); [discriminate|].
        injection H3 as <-. repeat split; [exact H1|exact H2|lia].
    + split.
      * intros (H1 & H2 & _). repeat split; [exact H1|exact H2|now left].
      * intros (H1 & H2 & _). repeat split; [exact H1|exact H2].
  - intros Ha Hr. rewrite Ha, Hr, Z.leb_refl. reflexivity.
  - intros Hr. rewrite Hr, Z.ltb_irrefl, andb_false_r. reflexivity.
Qed.

Lemma active_players_iff_witness :
  In (mkTeamPlayer 1 11 false (day 1) (Some (day 10)))
     (active_players (team_players league) (day 5)) /\
  is_active (mkTeamPlayer 1 10 true (day 5) None) (day 5) = true /\
  is_active (mkTeamPlayer 1 11 false (day 1) (Some (day 10))) (day 10) = false.
Proof.
  split; [|split].
  - apply (active_players_iff (team_players league) (mkTeamPlayer 1 11 false (day 1) (Some (day 10))) (day 5)).
    split; [simpl; tauto|]. split; [vm_compute; discriminate|].
    right. exists (day 10). split; [reflexivity|vm_compute; reflexivity].
  - apply (active_players_iff [] (mkTeamPlayer 1 10 true (day 5) None) (day 5));
      reflexivity.
  - apply (active_players_iff [] (mkTeamPlayer 1 11 false (day 1) (Some (day 10))) (day 10)).
    reflexivity.
Defined.

(** C2: for an active roster row whose performance in the match has
    non-null points [p], the team's points for that match are the sum of
    the active rows' contributions, and this row contributes [2p] if it is
    the captain and [p] otherwise. *)
Theorem captain_points_doubled (db : DB) (team : Team) (m : Match) (tp : TeamPlayer)
    (r : PlayerPerformance) (p : Z) :
  In tp (team_players db) -> tp_team_id tp = team_id team ->
  is_active tp (match_date m) = true ->
  List.filter (fun q => perf_player_id q =? tp_player_id tp)
              (performances_for db (match_id m)) = [r] ->
  points r = Some p ->
  In tp (active_players (team_rows db team) (match_date m)) /\
  team_match_points db team m =
    sumZ (map (member_points (perf_dict (performances_for db (match_id m))))
              (active_players (team_rows db team) (match_date m))) /\
  member_points (perf_dict (performances_for db (match_id m))) tp =
    (if is_captain tp then 2 * p else p).
Proof.
  intros Hin Ht Hact Hrow Hp. split; [|split].
  - unfold active_players. apply filter_In. split; [|exact Hact].
    apply In_team_rows; assumption.
  - apply team_match_points_sum.
  - unfold member_points. rewrite perf_dict_lookup, Hrow. simpl. rewrite Hp.
    unfold captain_points. destruct (is_captain tp); lia.
Qed.

Lemma captain_points_doubled_witness :
  In (mkTeamPlayer 1 10 true (day 1) None)
     (active_players (team_rows league (mkTeam 1 "A" 0)) (day 5)) /\
  team_match_points league (mkTeam 1 "A" 0) (mkMatch 1 "M1" (day 5)) =
    sumZ (map (member_points (perf_dict (performances_for league 1)))
              (active_players (team_rows league (mkTeam 1 "A" 0)) (day 5))) /\
  member_points (perf_dict (performances_for league 1)) (mkTeamPlayer 1 10 true (day 1) None)
    = 2 * 6.
Proof.
  apply (captain_points_doubled league (mkTeam 1 "A" 0) (mkMatch 1 "M1" (day 5))
           (mkTeamPlayer 1 10 true (day 1) None) (mkPerformance 10 1 (Some 6)) 6);
    [simpl; tauto|reflexivity|reflexivity|reflexivity|reflexivity].
Defined.

(** C9: with no match, or with matches but no team, the recompute
    returns an empty dict and leaves the database, stored totals
    included, exactly as it was. *)
Theorem recompute_no_matches_or_teams (ok : bool) (db : DB) :
  matches db = [] \/ teams db = [] ->
  update_team_total_points ok db = (Returned ∅, db).
Proof.
  intros H. unfold update_team_total_points.
  destruct H as [H|H].
  - rewrite H. reflexivity.
  - destruct (order_by match_date (matches db)); [reflexivity|]. rewrite H. reflexivity.
Qed.

Lemma recompute_no_matches_or_teams_witness :
  update_team_total_points true
    (mkDB [] [mkTeam 1 "A" 40] (team_players league) (performances league) [] [10; 11] [])
  = (Returned ∅,
     mkDB [] [mkTeam 1 "A" 40] (team_players league) (performances league) [] [10; 11] []).
Proof. apply recompute_no_matches_or_teams. left. reflexivity. Defined.

(** C4: running the recompute twice with no write in between returns the
    same dict and leaves the same database (stored totals included). *)
Theorem recompute_idempotent (db : DB) :
  let '(o1, db1) := update_team_total_points true db in
  let '(o2, db2) := update_team_total_points true db1 in
  o2 = o1 /\ db2 = db1.
Proof.
  destruct (matches db) as [|m ms] eqn:Hm.
  - rewrite recompute_no_matches_or_teams by (now left). rewrite recompute_no_matches_or_teams by (now left). split; reflexivity.
  - destruct (teams db) as [|t ts] eqn:Ht.
    + rewrite recompute_no_matches_or_teams by (now right).
      rewrite recompute_no_matches_or_teams by (now right). split; reflexivity.
    + rewrite update_team_total_points_run by (rewrite ?Hm, ?Ht; discriminate).
      set (tpts := team_points_of db (order_by match_date (matches db)) (teams db)).
      cbv beta iota zeta.
      rewrite update_team_total_points_run.
      * cbv beta iota zeta. simpl matches. rewrite team_points_of_write_totals. fold tpts.
        split; [reflexivity|].
        unfold write_totals at 1. simpl. rewrite map_map. reflexivity.
      * simpl. rewrite Hm. discriminate.
      * simpl. rewrite Ht. discriminate.
Qed.

(** C7: the new totals of all teams are staged and committed together:
    after the call either nothing has been written or every team has its
    new total; a failed commit leaves the database as it was and raises. *)
Theorem recompute_single_commit (ok : bool) (db : DB) :
  let tpts := team_points_of db (order_by match_date (matches db)) (teams db) in
  let '(o, db') := update_team_total_points ok db in
  (db' = db \/ (ok = true /\ o = Returned tpts /\ db' = write_totals db tpts)) /\
  (ok = false -> matches db <> [] -> teams db <> [] -> o = Raised).
Proof.
  cbv zeta.
  destruct (decide (matches db = [] \/ teams db = [])) as [H|H].
  - rewrite recompute_no_matches_or_teams by exact H.
    split; [now left|]. intros _ Hm Ht. destruct H; contradiction.
  - assert (Hm : matches db <> []) by tauto. assert (Ht : teams db <> []) by tauto.
    rewrite update_team_total_points_run by assumption. cbv zeta.
    destruct ok.
    + split; [right; tauto|]. discriminate.
    + split; [now left|]. reflexivity.
Qed.

Lemma recompute_single_commit_witness :
  let tpts := team_points_of league (order_by match_date (matches league)) (teams league) in
  let '(o, db') := update_team_total_points false league in
  (db' = league \/ (false = true /\ o = Returned tpts /\ db' = write_totals league tpts)) /\
  (false = false -> matches league <> [] -> teams league <> [] -> o = Raised).
Proof. exact (recompute_single_commit false league). Defined.

Lemma In_team_rows_inv db team tp :
  In tp (team_rows db team) -> In tp (team_players db) /\ tp_team_id tp = team_id team.
Proof.
  intros Hin. unfold team_rows in Hin.
  apply (Permutation_in _ (order_by_perm added_date _)) in Hin.
  apply filter_In in Hin. destruct Hin as [H1 H2]. split; [exact H1|]. now apply Z.eqb_eq.
Qed.

Lemma NoDup_map_inj {A B} (f : A -> B) (l : list A) a b :
  NoDup (map f l) -> In a l -> In b l -> f a = f b -> a = b.
Proof.
  induction l as [|x l IH]; intros Hnd Ha Hb E; [destruct Ha|].
  simpl in Hnd. apply NoDup_cons in Hnd. destruct Hnd as [Hx Hnd].
  destruct Ha as [<-|Ha], Hb as [<-|Hb]; try reflexivity.
  - exfalso. apply Hx. rewrite E. apply list_elem_of_In. now apply in_map.
  - exfalso. apply Hx. rewrite <- E. apply list_elem_of_In. now apply in_map.
  - now apply IH.
Qed.

(** Dropping [X]'s rows for [mid] changes no other lookup. *)
Lemma filter_drop_performances ps X mid mid' k :
  k <> X \/ mid' <> mid ->
  List.filter (fun p => perf_player_id p =? k)
    (List.filter (fun p => perf_match_id p =? mid')
       (List.filter (fun p => negb ((perf_player_id p =? X) && (perf_match_id p =? mid))) ps))
  = List.filter (fun p => perf_player_id p =? k)
      (List.filter (fun p => perf_match_id p =? mid') ps).
Proof.
  intros Hne. induction ps as [|p ps IH]; simpl; [reflexivity|].
  destruct (perf_player_id p =? X) eqn:E1, (perf_match_id p =? mid) eqn:E2; simpl;
    try (destruct (perf_match_id p =? mid'); simpl;
         [destruct (perf_player_id p =? k); [f_equal|]|]; exact IH).
  apply Z.eqb_eq in E1, E2.
  destruct (perf_match_id p =? mid') eqn:E3; simpl; [|exact IH].
  apply Z.eqb_eq in E3.
  destruct (perf_player_id p =? k) eqn:E4; [|exact IH].
  apply Z.eqb_eq in E4. exfalso. destruct Hne; congruence.
Qed.

Lemma member_points_drop db X mid m tp :
  tp_player_id tp <> X \/ match_id m <> mid ->
  member_points (perf_dict (performances_for (drop_performances db X mid) (match_id m))) tp
  = member_points (perf_dict (performances_for db (match_id m))) tp.
Proof.
  intros H. unfold member_points. rewrite !perf_dict_lookup.
  unfold performances_for. simpl. rewrite filter_drop_performances by exact H.
  reflexivity.
Qed.

(** C3: if no roster row of player [X] on [team] is active at match
    [M]'s date, [X]'s performance rows for [M] do not affect the team's
    recomputed total: the total is the same without them. *)
Theorem non_member_excluded (db : DB) (team : Team) (M : Match) (X : Z) :
  NoDup (map team_id (teams db)) -> NoDup (map match_id (matches db)) ->
  In team (teams db) -> In M (matches db) ->
  (forall tp, In tp (team_players db) -> tp_team_id tp = team_id team ->
              tp_player_id tp = X -> is_active tp (match_date M) = false) ->
  team_points_of db (order_by match_date (matches db)) (teams db) !! team_id team =
  team_points_of (drop_performances db X (match_id M))
                 (order_by match_date (matches db)) (teams db) !! team_id team.
Proof.
  intros Hnt Hnm Hteam HM Hx.
  rewrite !team_points_of_lookup by assumption. f_equal.
  rewrite !team_total_order_by. unfold team_total. f_equal. apply map_ext_in.
  intros m Hm. rewrite !team_match_points_sum.
  change (team_rows (drop_performances db X (match_id M)) team) with (team_rows db team).
  f_equal. apply map_ext_in. intros tp Htp.
  symmetry. apply member_points_drop.
  destruct (Z.eq_dec (match_id m) (match_id M)) as [E|E]; [left|now right].
  assert (m = M) by exact (NoDup_map_inj match_id _ m M Hnm Hm HM E). subst m.
  apply filter_In in Htp. destruct Htp as [Hrow Hact].
  apply In_team_rows_inv in Hrow. destruct Hrow as [Hrow Ht].
  intros Hp. specialize (Hx tp Hrow Ht Hp). congruence.
Qed.

Lemma non_member_excluded_witness :
  team_points_of league (order_by match_date (matches league)) (teams league) !! 1 =
  team_points_of (drop_performances league 11 2)
                 (order_by match_date (matches league)) (teams league) !! 1.
Proof.
  apply (non_member_excluded league (mkTeam 1 "A" 0) (mkMatch 2 "M2" (day 15)) 11).
  - apply (bool_decide_unpack _). vm_compute. reflexivity.
  - apply (bool_decide_unpack _). vm_compute. reflexivity.
  - simpl. tauto.
  - simpl. tauto.
  - intros tp Hin Ht Hp. simpl in Hin.
    destruct Hin as [<-|[<-|[]]]; [discriminate Hp|reflexivity].
Defined.

Lemma filter_none {A} (p : A -> bool) (l : list A) :
  (forall x, In x l -> p x = false) -> List.filter p l = [].
Proof.
  induction l as [|x l IH]; intros H; simpl; [reflexivity|].
  rewrite (H x) by now left. apply IH. intros y Hy. apply H. now right.
Qed.

Lemma filter_single_match (l : list Match) (M : Match) :
  NoDup (map match_id l) -> In M l ->
  List.filter (fun m => match_id m =? match_id M) l = [M].
Proof.
  induction l as [|x l IH]; intros Hnd HM; [destruct HM|].
  simpl in Hnd. apply NoDup_cons in Hnd. destruct Hnd as [Hx Hnd]. simpl.
  destruct HM as [<-|HM].
  - rewrite Z.eqb_refl. f_equal.
    apply filter_none. intros m Hm. apply Z.eqb_neq. intros E. apply Hx. rewrite <- E.
    apply list_elem_of_In. now apply in_map.
  - destruct (match_id x =? match_id M) eqn:E.
    + exfalso. apply Z.eqb_eq in E. apply Hx. rewrite E.
      apply list_elem_of_In. now apply in_map.
    + now apply IH.
Qed.

Lemma sumZ_filter_split {A} (f : A -> Z) (p : A -> bool) (l : list A) :
  sumZ (map f l) =
  sumZ (map f (List.filter p l)) + sumZ (map f (List.filter (fun x => negb (p x)) l)).
Proof.
  induction l as [|x l IH]; simpl; [reflexivity|].
  destruct (p x); simpl; rewrite IH; lia.
Qed.

Lemma team_match_points_remove_game db game_id team m :
  match_id m <> game_id ->
  team_match_points (remove_game game_id db) team m = team_match_points db team m.
Proof.
  intros Hne. unfold team_match_points.
  change (team_rows (remove_game game_id db) team) with (team_rows db team).
  replace (performances_for (remove_game game_id db) (match_id m))
    with (performances_for db (match_id m)); [reflexivity|].
  unfold performances_for. simpl. induction (performances db) as [|p ps IH]; simpl;
    [reflexivity|].
  destruct (perf_match_id p =? game_id) eqn:E1; simpl.
  - apply Z.eqb_eq in E1. destruct (perf_match_id p =? match_id m) eqn:E2; [|exact IH].
    apply Z.eqb_eq in E2. congruence.
  - destruct (perf_match_id p =? match_id m); [f_equal|]; exact IH.
Qed.

(** When every stored total is the recomputed value and another match
    remains, deleting match [M] and recomputing leaves every team's total
    lowered by exactly [M]'s contribution to it. *)
Theorem delete_game_subtracts (db : DB) (M : Match) :
  NoDup (map team_id (teams db)) -> NoDup (map match_id (matches db)) ->
  In M (matches db) ->
  (exists M', In M' (matches db) /\ match_id M' <> match_id M) ->
  (forall team, In team (teams db) -> total_points team = team_total db (matches db) team) ->
  fst (delete_game true (match_id M) db) = 200 /\
  teams (snd (delete_game true (match_id M) db)) =
    map (fun team => with_total team (total_points team - team_match_points db team M))
        (teams db).
Proof.
  intros Hnt Hnm HM [M' [HM' HM'ne]] Hstored.
  unfold delete_game.
  destruct (List.find (fun m => match_id m =? match_id M) (matches db)) as [game|] eqn:F.
  2:{ exfalso. pose proof (List.find_none _ _ F M HM) as H. simpl in H.
      rewrite Z.eqb_refl in H. discriminate. }
  set (db1 := remove_game (match_id M) db).
  assert (Hm1 : matches db1 <> []).
  { intros E. assert (In M' (matches db1)) as H.
    { apply filter_In. split; [exact HM'|]. apply negb_true_iff, Z.eqb_neq. exact HM'ne. }
    rewrite E in H. destruct H. }
  destruct (decide (teams db = [])) as [Ht|Ht].
  - rewrite recompute_no_matches_or_teams by (right; exact Ht). simpl.
    split; [reflexivity|]. rewrite Ht. reflexivity.
  - rewrite update_team_total_points_run by assumption. cbv zeta. simpl.
    split; [reflexivity|]. apply map_ext_in. intros team Hteam.
    rewrite team_points_of_lookup by assumption. simpl. f_equal.
    rewrite team_total_order_by, (Hstored team Hteam). unfold team_total.
    rewrite (sumZ_filter_split _ (fun m => match_id m =? match_id M) (matches db)).
    rewrite filter_single_match by assumption. simpl.
    assert (E : map (team_match_points db1 team)
                    (List.filter (fun m => negb (match_id m =? match_id M)) (matches db)) =
                map (team_match_points db team)
                    (List.filter (fun x => negb (match_id x =? match_id M)) (matches db))).
    { apply map_ext_in. intros m Hm. apply filter_In in Hm. destruct Hm as [_ Hm].
      apply team_match_points_remove_game. apply negb_true_iff, Z.eqb_neq in Hm. exact Hm. }
    rewrite E. lia.
Qed.

Lemma delete_game_subtracts_witness :
  fst (delete_game true 1 league_synced) = 200 /\
  teams (snd (delete_game true 1 league_synced)) =
    map (fun team => with_total team (total_points team -
                       team_match_points league_synced team (mkMatch 1 "M1" (day 5))))
        (teams league_synced).
Proof.
  apply (delete_game_subtracts league_synced (mkMatch 1 "M1" (day 5))).
  - apply (bool_decide_unpack _). vm_compute. reflexivity.
  - apply (bool_decide_unpack _). vm_compute. reflexivity.
  - simpl. tauto.
  - exists (mkMatch 2 "M2" (day 15)). split; [simpl; tauto|discriminate].
  - intros team Hin. simpl in Hin. destruct Hin as [<-|[]]. vm_compute. reflexivity.
Defined.

(** C5 (code bug): when [M] is the only match, [delete_game] deletes it
    and answers 200 but writes no total.  With no match left,
    [update_team_total_points] returns at lines 32-34, before its writes,
    so every team keeps its stored total.  When that total was up to date,
    it is exactly [M]'s contribution, where the claim expects it to drop
    by that amount, to 0. *)
Theorem delete_last_game_keeps_points (ok : bool) (db : DB) (M : Match) :
  matches db = [M] ->
  (forall team, In team (teams db) -> total_points team = team_total db (matches db) team) ->
  fst (delete_game ok (match_id M) db) = 200 /\
  matches (snd (delete_game ok (match_id M) db)) = [] /\
  teams (snd (delete_game ok (match_id M) db)) = teams db /\
  (forall team, In team (teams db) -> total_points team = team_match_points db team M).
Proof.
  intros Hm Hs. unfold delete_game. rewrite Hm. cbn [List.find]. rewrite Z.eqb_refl.
  assert (E : matches (remove_game (match_id M) db) = []).
  { cbn [remove_game matches]. rewrite Hm. cbn [List.filter]. rewrite Z.eqb_refl.
    reflexivity. }
  unfold update_team_total_points. rewrite E.
  change (order_by match_date (@nil Match)) with (@nil Match). cbn [fst snd].
  split; [reflexivity|]. split; [exact E|]. split; [reflexivity|].
  intros team Ht. rewrite (Hs team Ht), Hm. unfold team_total, sumZ.
  cbn [map fold_right]. lia.
Qed.

Lemma delete_last_game_keeps_points_witness :
  fst (delete_game true 1 league_last_match) = 200 /\
  matches (snd (delete_game true 1 league_last_match)) = [] /\
  teams (snd (delete_game true 1 league_last_match)) = teams league_last_match /\
  (forall team, In team (teams league_last_match) ->
     total_points team = team_match_points league_last_match team (mkMatch 1 "M1" (day 5))).
Proof.
  apply (delete_last_game_keeps_points true league_last_match (mkMatch 1 "M1" (day 5)));
    [reflexivity|].
  intros team Hin. simpl in Hin. destruct Hin as [<-|[]]. vm_compute. reflexivity.
Defined.

(** Deleting the last match: team A's stored 16 is exactly M1's
    contribution, but the recompute returns early on the empty match
    table and the total stays 16 instead of dropping to 0. *)
Lemma delete_game_counterexample :
  team_match_points league_last_match (mkTeam 1 "A" 16) (mkMatch 1 "M1" (day 5)) = 16 /\
  fst (delete_game true 1 league_last_match) = 200 /\
  teams (snd (delete_game true 1 league_last_match)) = [mkTeam 1 "A" 16] /\
  16 <> 16 - 16.
Proof. vm_compute. split; [reflexivity|split; [reflexivity|split; [reflexivity|discriminate]]]. Qed.

(* ------------------------------------------------------------------ *)
(** ** Roster changes *)

Lemma find_all_false {A} (f : A -> bool) (l : list A) :
  (forall x, In x l -> f x = false) -> List.find f l = None.
Proof.
  induction l as [|x l IH]; intros H; simpl; [reflexivity|].
  rewrite (H x) by now left. apply IH. intros y Hy. apply H. now right.
Qed.

Lemma same_pair_true t p tp :
  same_pair t p tp = true -> tp_team_id tp = t /\ tp_player_id tp = p.
Proof. unfold same_pair. rewrite andb_true_iff, !Z.eqb_eq. tauto. Qed.

Lemma filter_set_removed t p r tps :
  List.filter (same_pair t p) (set_removed t p r tps) =
  map (fun tp => mkTeamPlayer (tp_team_id tp) (tp_player_id tp) (is_captain tp)
                              (added_date tp) r)
      (List.filter (same_pair t p) tps).
Proof.
  induction tps as [|tp tps IH]; simpl; [reflexivity|].
  destruct (same_pair t p tp) eqn:E; simpl.
  - assert (E' : same_pair t p (mkTeamPlayer (tp_team_id tp) (tp_player_id tp)
                                 (is_captain tp) (added_date tp) r) = true) by exact E.
    rewrite E'. f_equal. exact IH.
  - rewrite E. exact IH.
Qed.

Lemma filter_map_inv {A} (f : A -> A) (q : A -> bool) (l : list A) :
  (forall x, q (f x) = q x) -> List.filter q (map f l) = map f (List.filter q l).
Proof.
  intros Hq. induction l as [|x l IH]; [reflexivity|].
  cbn [map List.filter]. rewrite Hq. destruct (q x); [cbn [map]; f_equal|]; exact IH.
Qed.

Lemma same_pair_restamp t p now us tp :
  same_pair t p (restamp_row now us tp) = same_pair t p tp.
Proof.
  unfold restamp_row.
  destruct (existsb _ us); [reflexivity|]. destruct (existsb _ us); reflexivity.
Qed.

(** A flush keeps a row's key and captain flag, and whether it is
    removed. *)
Lemma restamp_row_fields now us tp :
  tp_team_id (restamp_row now us tp) = tp_team_id tp /\
  tp_player_id (restamp_row now us tp) = tp_player_id tp /\
  is_captain (restamp_row now us tp) = is_captain tp /\
  match removed_date (restamp_row now us tp) with None => true | Some _ => false end =
  match removed_date tp with None => true | Some _ => false end.
Proof.
  unfold restamp_row.
  destruct (existsb _ us); [|destruct (existsb _ us)]; simpl;
    (split; [reflexivity|split; [reflexivity|split; [reflexivity|]]]);
    destruct (removed_date tp); reflexivity.
Qed.

(** A persistent row keeps its [added_date]. *)
Lemma restamp_row_added now us tp :
  existsb (is_pending_insert (tp_team_id tp) (tp_player_id tp)) us = false ->
  added_date (restamp_row now us tp) = added_date tp.
Proof.
  intros H. unfold restamp_row. rewrite H.
  destruct (existsb (is_pending_removal _ _) us); reflexivity.
Qed.

Lemma pair_rows_restamp now db t p :
  pair_rows (restamp now db) t p = map (restamp_row now (unflushed db)) (pair_rows db t p).
Proof.
  unfold pair_rows. cbn [team_players restamp].
  apply filter_map_inv. intros x. apply same_pair_restamp.
Qed.

Lemma pair_history_restamp now db t p :
  pair_history (restamp now db) t p = pair_history db t p.
Proof.
  unfold pair_history. cbn [history restamp]. unfold restamp_history.
  set (q := fun h => (h_team_id h =? t) && (h_player_id h =? p)).
  set (n := (length (history db) - _)%nat).
  rewrite List.filter_app, map_app, filter_map_inv by reflexivity.
  rewrite map_map. change (fun x => action (stamp_history now x)) with action.
  rewrite <- map_app, <- List.filter_app, firstn_skipn. reflexivity.
Qed.

Lemma restamp_nothing now db : unflushed db = [] -> restamp now db = db.
Proof.
  destruct db as [ms ts tps ps hs pids us]. cbn [unflushed]. intros ->.
  unfold restamp. cbn [matches teams team_players performances history player_ids unflushed].
  f_equal.
  - induction tps as [|tp tps IH]; [reflexivity|]. cbn [map]. rewrite IH. reflexivity.
  - unfold restamp_history. cbn [List.filter length]. rewrite Nat.sub_0_r.
    rewrite firstn_all, skipn_all. apply app_nil_r.
Qed.

Lemma restamp_history_last now hs h :
  restamp_history now 1 (hs ++ [h]) = hs ++ [stamp_history now h].
Proof.
  unfold restamp_history. rewrite length_app. cbn [length].
  replace (length hs + 1 - 1)%nat with (length hs) by lia.
  rewrite firstn_app, skipn_app, firstn_all, skipn_all, Nat.sub_diag. simpl.
  rewrite app_nil_r. reflexivity.
Qed.

(** Adding a pair that has no row creates one pending row. *)
Lemma add_player_fresh now t p c mid db :
  pair_rows db t p = [] ->
  snd (add_player now t p c mid db) =
  with_roster db (team_players (restamp now db) ++ [mkTeamPlayer t p c now None])
              (history (restamp now db) ++ [mkHistory t p "add" now mid])
              [PendingInsert t p; PendingHistory].
Proof.
  intros Hrows. unfold add_player. cbn [autoflush team_players].
  assert (Hr' : pair_rows (restamp now db) t p = [])
    by (rewrite pair_rows_restamp, Hrows; reflexivity).
  rewrite find_all_false.
  - unfold pair_rows in Hr'. rewrite Hr'. reflexivity.
  - intros x Hx. destruct (same_pair t p x) eqn:E; [|reflexivity].
    exfalso. assert (In x (pair_rows (restamp now db) t p)) as H by (apply filter_In; tauto).
    rewrite Hr' in H. destruct H.
Qed.

(** Adding a pair whose only row is removed reopens that row. *)
Lemma add_player_reopen now t p c mid db row r :
  pair_rows db t p = [row] -> removed_date row = Some r ->
  snd (add_player now t p c mid db) =
  with_roster db (set_removed t p None (team_players (restamp now db)))
              (history (restamp now db) ++ [mkHistory t p "add" now mid]) [PendingHistory].
Proof.
  intros Hrows Hr. unfold add_player. cbn [autoflush team_players].
  set (row' := restamp_row now (unflushed db) row).
  assert (Hr' : pair_rows (restamp now db) t p = [row'])
    by (rewrite pair_rows_restamp, Hrows; reflexivity).
  assert (Hs : match removed_date row' with None => true | Some _ => false end = false)
    by (unfold row'; destruct (restamp_row_fields now (unflushed db) row) as (_ & _ & _ & ->);
        rewrite Hr; reflexivity).
  rewrite find_all_false.
  - unfold pair_rows in Hr'. rewrite Hr'. unfold latest_added. cbn.
    destruct (removed_date row'); [reflexivity|discriminate].
  - intros x Hx. destruct (same_pair t p x) eqn:E; [|reflexivity].
    assert (In x (pair_rows (restamp now db) t p)) as H by (apply filter_In; tauto).
    rewrite Hr' in H. destruct H as [<-|[]]. exact Hs.
Qed.

Lemma remove_player_persistent now t p mid db :
  unflushed db = [] ->
  remove_player now t p mid db =
  with_roster db (set_removed t p (Some now) (team_players db))
              (history db ++ [mkHistory t p "remove" now mid]) [PendingRemoval t p; PendingHistory].
Proof.
  intros H. unfold remove_player. rewrite (restamp_nothing now db H), H. reflexivity.
Qed.

Lemma pair_history_app db t p hs :
  map action (List.filter (fun h => (h_team_id h =? t) && (h_player_id h =? p))
                          (history db ++ hs))
  = pair_history db t p ++
    map action (List.filter (fun h => (h_team_id h =? t) && (h_player_id h =? p)) hs).
Proof. unfold pair_history. rewrite List.filter_app, map_app. reflexivity. Qed.

Lemma same_pair_refl t p c a r : same_pair t p (mkTeamPlayer t p c a r) = true.
Proof. unfold same_pair. simpl. rewrite !Z.eqb_refl. reflexivity. Qed.

Lemma history_filter_refl t p a n mid :
  map action (List.filter (fun h => (h_team_id h =? t) && (h_player_id h =? p))
                          [mkHistory t p a n mid]) = [a].
Proof. simpl. rewrite !Z.eqb_refl. reflexivity. Qed.

(** C6: starting from a [(team, player)] pair with no roster row and no
    history, the requests add, remove and add again (each committed) keep
    exactly one row for the pair, whose [removed_date] is null after the
    second add, and log exactly [add], [remove], [add] for the pair. *)
Theorem add_remove_add_reopens (db : DB) (t p now1 now2 now3 : Z) (c1 c3 : bool)
    (m1 m2 m3 : option Z) :
  pair_rows db t p = [] -> pair_history db t p = [] ->
  let db1 := commit (snd (add_player now1 t p c1 m1 db)) in
  let db2 := commit (remove_player now2 t p m2 db1) in
  let db3 := commit (snd (add_player now3 t p c3 m3 db2)) in
  pair_rows db1 t p = [mkTeamPlayer t p c1 now1 None] /\
  pair_rows db2 t p = [mkTeamPlayer t p c1 now1 (Some now2)] /\
  pair_rows db3 t p = [mkTeamPlayer t p c1 now1 None] /\
  pair_history db3 t p = ["add"; "remove"; "add"]%string.
Proof.
  intros Hr Hh. cbv zeta.
  set (db1 := commit (snd (add_player now1 t p c1 m1 db))).
  assert (E1 : db1 = commit (with_roster db
                  (team_players (restamp now1 db) ++ [mkTeamPlayer t p c1 now1 None])
                  (history (restamp now1 db) ++ [mkHistory t p "add" now1 m1])
                  [PendingInsert t p; PendingHistory]))
    by (unfold db1; rewrite add_player_fresh by exact Hr; reflexivity).
  assert (R1 : pair_rows db1 t p = [mkTeamPlayer t p c1 now1 None]).
  { rewrite E1. unfold pair_rows.
    change (team_players (commit (with_roster db ?x ?y ?z))) with x.
    rewrite List.filter_app. fold (pair_rows (restamp now1 db) t p).
    rewrite pair_rows_restamp, Hr. cbn [map app List.filter]. rewrite same_pair_refl.
    reflexivity. }
  assert (H1 : pair_history db1 t p = ["add"]%string).
  { rewrite E1. unfold pair_history at 1. cbn [history commit autoflush with_roster].
    rewrite pair_history_app, pair_history_restamp, Hh, history_filter_refl. reflexivity. }
  assert (U1 : unflushed db1 = []) by reflexivity.
  set (db2 := commit (remove_player now2 t p m2 db1)).
  assert (E2 : db2 = commit (with_roster db1 (set_removed t p (Some now2) (team_players db1))
                  (history db1 ++ [mkHistory t p "remove" now2 m2])
                  [PendingRemoval t p; PendingHistory]))
    by (unfold db2; rewrite remove_player_persistent by exact U1; reflexivity).
  assert (R2 : pair_rows db2 t p = [mkTeamPlayer t p c1 now1 (Some now2)]).
  { rewrite E2. unfold pair_rows.
    change (team_players (commit (with_roster db1 ?x ?y ?z))) with x.
    rewrite filter_set_removed. fold (pair_rows db1 t p).
    rewrite R1. reflexivity. }
  assert (H2 : pair_history db2 t p = ["add"; "remove"]%string).
  { rewrite E2. unfold pair_history at 1. cbn [history commit autoflush with_roster].
    rewrite pair_history_app, H1, history_filter_refl. reflexivity. }
  assert (U2 : unflushed db2 = []) by reflexivity.
  assert (E3 : commit (snd (add_player now3 t p c3 m3 db2)) =
               commit (with_roster db2 (set_removed t p None (team_players db2))
                  (history db2 ++ [mkHistory t p "add" now3 m3]) [PendingHistory])).
  { rewrite (add_player_reopen now3 t p c3 m3 db2 _ now2 R2) by reflexivity.
    rewrite (restamp_nothing now3 db2 U2). reflexivity. }
  rewrite E3. split; [exact R1|]. split; [exact R2|]. split.
  - unfold pair_rows.
    change (team_players (commit (with_roster db2 ?x ?y ?z))) with x.
    rewrite filter_set_removed. fold (pair_rows db2 t p).
    rewrite R2. reflexivity.
  - unfold pair_history at 1. cbn [history commit autoflush with_roster].
    rewrite pair_history_app, H2, history_filter_refl. reflexivity.
Qed.

Lemma add_remove_add_reopens_witness :
  let db1 := commit (snd (add_player 100 1 12 false None league)) in
  let db2 := commit (remove_player 200 1 12 None db1) in
  let db3 := commit (snd (add_player 300 1 12 false None db2)) in
  pair_rows db1 1 12 = [mkTeamPlayer 1 12 false 100 None] /\
  pair_rows db2 1 12 = [mkTeamPlayer 1 12 false 100 (Some 200)] /\
  pair_rows db3 1 12 = [mkTeamPlayer 1 12 false 100 None] /\
  pair_history db3 1 12 = ["add"; "remove"; "add"]%string.
Proof. apply add_remove_add_reopens; reflexivity. Defined.

(** C10: re-adding a removed pair whose row is stored (persistent) reopens
    that single row with its original [added_date], so the recompute's
    activity test, which failed for every timestamp from the removal on,
    now holds at every timestamp from the first addition on, including the
    gap between removal and re-add. *)
Theorem readd_spans_gap (db : DB) (t p now : Z) (c : bool) (mid : option Z)
    (row : TeamPlayer) (r : Z) (team : Team) :
  pair_rows db t p = [row] -> removed_date row = Some r ->
  ~ In (PendingInsert t p) (unflushed db) -> team_id team = t ->
  let db' := commit (snd (add_player now t p c mid db)) in
  let row' := mkTeamPlayer t p (is_captain row) (added_date row) None in
  (forall d, r <= d -> is_active row d = false) /\
  pair_rows db' t p = [row'] /\
  (forall d, added_date row <= d -> In row' (active_players (team_rows db' team) d)).
Proof.
  intros Hrows Hr Hpend Ht. cbv zeta.
  assert (Hin : In row (List.filter (same_pair t p) (team_players db)))
    by (fold (pair_rows db t p); rewrite Hrows; left; reflexivity).
  apply filter_In in Hin as [Hin Hsp].
  pose proof (same_pair_true _ _ _ Hsp) as [Ht' Hp'].
  set (us := unflushed db) in *.
  assert (Hins : existsb (is_pending_insert (tp_team_id row) (tp_player_id row)) us = false).
  { rewrite Ht', Hp'. apply not_true_iff_false. intros H.
    apply existsb_exists in H as [u [Hu Hq]]. apply Hpend.
    destruct u as [t0 p0|t0 p0|]; try discriminate.
    apply andb_true_iff in Hq as [Q1 Q2]. apply Z.eqb_eq in Q1, Q2. subst. exact Hu. }
  destruct (restamp_row_fields now us row) as (F1 & F2 & F3 & _).
  pose proof (restamp_row_added now us row Hins) as F4.
  assert (Hrow' : mkTeamPlayer (tp_team_id (restamp_row now us row))
                    (tp_player_id (restamp_row now us row))
                    (is_captain (restamp_row now us row))
                    (added_date (restamp_row now us row)) None =
                  mkTeamPlayer t p (is_captain row) (added_date row) None)
    by (rewrite F1, F2, F3, F4, Ht', Hp'; reflexivity).
  rewrite (add_player_reopen now t p c mid db row r Hrows Hr).
  split; [|split].
  - intros d Hd. unfold is_active. rewrite Hr.
    replace (d <? r) with false by (symmetry; apply Z.ltb_ge; lia).
    apply andb_false_r.
  - unfold pair_rows.
    change (team_players (commit (with_roster db ?x ?y ?z))) with x.
    rewrite filter_set_removed. fold (pair_rows (restamp now db) t p).
    rewrite pair_rows_restamp, Hrows. cbn [map]. change (unflushed db) with us.
    rewrite Hrow'. reflexivity.
  - intros d Hd. unfold active_players. apply filter_In. split.
    + unfold team_rows.
      change (team_players (commit (with_roster db ?x ?y ?z))) with x.
      eapply Permutation_in; [symmetry; apply order_by_perm|].
      apply filter_In. split.
      * unfold set_removed. apply in_map_iff. exists (restamp_row now us row). split.
        -- rewrite same_pair_restamp, Hsp. exact Hrow'.
        -- cbn [team_players restamp]. apply in_map. exact Hin.
      * simpl. rewrite Ht. apply Z.eqb_refl.
    + unfold is_active. simpl. rewrite andb_true_r. apply Z.leb_le. exact Hd.
Qed.

Lemma readd_spans_gap_witness :
  let db' := commit (snd (add_player 2000000 1 11 false None league)) in
  let row' := mkTeamPlayer 1 11 false (day 1) None in
  (forall d, day 10 <= d -> is_active (mkTeamPlayer 1 11 false (day 1) (Some (day 10))) d = false) /\
  pair_rows db' 1 11 = [row'] /\
  (forall d, day 1 <= d -> In row' (active_players (team_rows db' (mkTeam 1 "A" 0)) d)).
Proof.
  apply (readd_spans_gap league 1 11 2000000 false None
           (mkTeamPlayer 1 11 false (day 1) (Some (day 10))) (day 10));
    [reflexivity|reflexivity|intros []|reflexivity].
Defined.

(* ------------------------------------------------------------------ *)
(** ** Validation of a performance submission *)

Lemma negative_stat_invalid e v :
  In (Some v) (numeric_fields e) -> lt_zero v = true ->
  existsb stat_invalid (stats_of e) = true.
Proof.
  intros Hin Hv. apply existsb_exists.
  unfold numeric_fields in Hin.
  destruct Hin as [H|[H|[H|[H|[H|[H|[H|[]]]]]]]];
    (eexists (_, v); split;
       [unfold stats_of; rewrite H; cbn; repeat (first [left; reflexivity | right])
       | unfold stat_invalid; rewrite Hv; apply orb_true_r]).
Qed.

(** One iteration of the validation loop that does not return. *)
Ltac validation_step E :=
  lazymatch goal with
  | |- context [player_id_key ?k] =>
    let pid := fresh "pid" in
    destruct (player_id_key k) as [pid|]; [|discriminate];
    lazymatch goal with
    | |- context [existsb (Z.eqb pid) ?seen] =>
      destruct (existsb (Z.eqb pid) seen); [discriminate|];
      lazymatch goal with
      | |- context [negb (?ex pid)] =>
        destruct (negb (ex pid)); [discriminate|];
        lazymatch goal with
        | |- context [existsb stat_invalid ?st] =>
          destruct (existsb stat_invalid st); [discriminate|];
          lazymatch goal with
          | |- context [validate_entries ex (pid :: seen) ?rest] =>
            destruct (validate_entries ex (pid :: seen) rest) as [?c|?vs'] eqn:E;
            [discriminate|]
          end
        end
      end
    end
  end.

Lemma validate_negative_not_ok ex seen es e v vs :
  In (JObject e) es -> In (Some v) (numeric_fields e) -> lt_zero v = true ->
  validate_entries ex seen es <> VOk vs.
Proof.
  intros Hin Hf Hv. revert seen vs.
  induction es as [|x es IH]; intros seen vs; [destruct Hin|].
  destruct Hin as [->|Hin].
  - cbn [validate_entries]. destruct (player_id_key _) as [pid|]; [|discriminate].
    destruct (existsb (Z.eqb pid) _); [discriminate|].
    destruct (negb _); [discriminate|].
    rewrite (negative_stat_invalid e v Hf Hv). discriminate.
  - destruct x as [e'|]; [|discriminate]. cbn [validate_entries]. intros Hok.
    revert Hok. validation_step E. intros _. exact (IH Hin _ _ E).
Qed.

Lemma validate_seen_not_ok ex seen es e q vs :
  In q seen -> In (JObject e) es -> player_id_key (pe_player_id e) = Some q ->
  validate_entries ex seen es <> VOk vs.
Proof.
  intros Hs Hin Hk. revert seen vs Hs.
  induction es as [|x es IH]; intros seen vs Hs; [destruct Hin|].
  destruct Hin as [->|Hin].
  - cbn [validate_entries]. rewrite Hk.
    replace (existsb (Z.eqb q) seen) with true; [discriminate|].
    symmetry. apply existsb_exists. exists q. split; [exact Hs|apply Z.eqb_refl].
  - destruct x as [e'|]; [|discriminate]. cbn [validate_entries]. intros Hok.
    revert Hok. validation_step E. intros _.
    exact (IH Hin (pid :: seen) _ (or_intror Hs) E).
Qed.

Lemma validate_duplicate_not_ok ex seen l1 e1 l2 e2 l3 vs :
  pe_player_id e1 = pe_player_id e2 ->
  validate_entries ex seen (l1 ++ JObject e1 :: l2 ++ JObject e2 :: l3) <> VOk vs.
Proof.
  intros Hid. revert seen vs.
  induction l1 as [|x l1 IH]; intros seen vs.
  - cbn [validate_entries app]. destruct (player_id_key (pe_player_id e1)) as [pid|] eqn:Hk; [|discriminate].
    destruct (existsb (Z.eqb pid) _); [discriminate|].
    destruct (negb _); [discriminate|].
    destruct (existsb stat_invalid _); [discriminate|].
    destruct (validate_entries _ _ _) as [c|vs'] eqn:E; [discriminate|].
    exfalso. refine (validate_seen_not_ok ex (pid :: seen) _ e2 pid _ (or_introl eq_refl) _ _ E).
    + apply in_or_app. right. left. reflexivity.
    + rewrite <- Hid. exact Hk.
  - destruct x as [e'|]; [|discriminate]. cbn [validate_entries app]. intros Hok.
    revert Hok. validation_step E. intros _. exact (IH _ _ E).
Qed.

Lemma validate_error_status ex seen es c :
  validate_entries ex seen es = VError c ->
  c = 400 \/
  (c = 404 /\ exists e pid, In (JObject e) es /\ player_id_key (pe_player_id e) = Some pid /\
                            ex pid = false).
Proof.
  revert seen. induction es as [|x es IH]; intros seen H; cbn [validate_entries] in H; [discriminate|].
  destruct x as [e|]; [|injection H; auto].
  destruct (player_id_key (pe_player_id e)) as [pid|] eqn:Hk; [|injection H; auto].
  destruct (existsb (Z.eqb pid) seen); [injection H; auto|].
  destruct (ex pid) eqn:Hex; cbn [validate_entries] in H.
  - destruct (existsb stat_invalid _); [injection H; auto|].
    destruct (validate_entries ex (pid :: seen) es) as [c'|vs] eqn:E; [|discriminate].
    injection H as <-. destruct (IH _ E) as [H|[H (e' & pid' & H1 & H2 & H3)]]; [now left|].
    right. split; [exact H|]. exists e', pid'. split; [right; exact H1|split; assumption].
  - injection H as <-. right. split; [reflexivity|].
    exists e, pid. split; [left; reflexivity|split; assumption].
Qed.

(** The 404 of the validation loop comes from an entry [e] naming a
    missing player, preceded only by objects naming existing players,
    without an invalid stat, all with distinct ids not in [seen]; nor is
    [e]'s id among them. *)
Lemma validate_404_prefix ex seen es :
  validate_entries ex seen es = VError 404 ->
  exists l1 e l2 pid,
    es = l1 ++ JObject e :: l2 /\ player_id_key (pe_player_id e) = Some pid /\
    ex pid = false /\
    (forall j, In j l1 -> exists e' q, j = JObject e' /\ player_id_key (pe_player_id e') = Some q /\
                                       ex q = true /\ existsb stat_invalid (stats_of e') = false) /\
    NoDup (map entry_key (l1 ++ [JObject e])) /\
    (forall q, In (Some q) (map entry_key (l1 ++ [JObject e])) -> ~ In q seen).
Proof.
  revert seen. induction es as [|x es IH]; intros seen H; cbn [validate_entries] in H;
    [discriminate|].
  destruct x as [e|]; [|discriminate].
  destruct (player_id_key (pe_player_id e)) as [pid|] eqn:Hk; [|discriminate].
  destruct (existsb (Z.eqb pid) seen) eqn:Hseen; [discriminate|].
  assert (Hns : ~ In pid seen).
  { intros Hin. apply not_true_iff_false in Hseen. apply Hseen.
    apply existsb_exists. exists pid. split; [exact Hin|apply Z.eqb_refl]. }
  destruct (ex pid) eqn:Hex; cbn [negb] in H.
  - destruct (existsb stat_invalid (stats_of e)) eqn:Hst; [discriminate|].
    destruct (validate_entries ex (pid :: seen) es) as [c|vs] eqn:E; [|discriminate].
    injection H as ->.
    destruct (IH _ E) as (l1 & e1 & l2 & pid1 & -> & H1 & H2 & H3 & H4 & H5).
    exists (JObject e :: l1), e1, l2, pid1. split; [reflexivity|].
    split; [exact H1|]. split; [exact H2|]. split; [|split].
    + intros j [<-|Hj]; [|exact (H3 j Hj)].
      exists e, pid. repeat split; assumption.
    + cbn [app map]. apply NoDup_cons. split; [|exact H4].
      intros Hin. apply list_elem_of_In in Hin. cbn [entry_key] in Hin. rewrite Hk in Hin.
      exact (H5 pid Hin (or_introl eq_refl)).
    + intros q Hq. cbn [app map entry_key] in Hq. rewrite Hk in Hq.
      destruct Hq as [Hq|Hq].
      * injection Hq as <-. exact Hns.
      * intros Hin. exact (H5 q Hq (or_intror Hin)).
  - exists [], e, es, pid. split; [reflexivity|].
    split; [exact Hk|]. split; [exact Hex|]. split; [|split].
    + intros j [].
    + cbn [app map]. apply NoDup_singleton.
    + intros q Hq. cbn [app map entry_key] in Hq. rewrite Hk in Hq.
      destruct Hq as [Hq|[]]. injection Hq as <-. exact Hns.
Qed.

(** C8 (corrected): a submission with a negative numeric stat or with the
    same [player_id] in two entries never reaches the processing: the
    database is left unchanged and the status is 400, or 404.  A 404 comes
    from an entry [e] naming a player that does not exist, and every entry
    before [e] names an existing player, has no negative numeric stat and
    has its own id, which is not [e]'s either: so every entry with a
    negative stat is [e] or comes after it, and of two entries with the
    same [player_id] the second comes after [e].  The existence check of
    [e] runs before the duplicate and stat checks of later entries. *)
Theorem add_match_performance_rejects process_valid (req : PerfRequest) (db : DB)
    (es : list JEntry) :
  rq_players_performance req = Some es ->
  ((exists e v, In (JObject e) es /\ In (Some v) (numeric_fields e) /\ lt_zero v = true) \/
   (exists l1 e1 l2 e2 l3, es = l1 ++ JObject e1 :: l2 ++ JObject e2 :: l3 /\
                           pe_player_id e1 = pe_player_id e2)) ->
  snd (add_match_performance process_valid req db) = db /\
  (fst (add_match_performance process_valid req db) = 400 \/
   (fst (add_match_performance process_valid req db) = 404 /\
    exists l1 e l2 pid,
      es = l1 ++ JObject e :: l2 /\ player_id_key (pe_player_id e) = Some pid /\
      ~ In pid (player_ids db) /\
      (forall j, In j l1 ->
         exists e' q, j = JObject e' /\ player_id_key (pe_player_id e') = Some q /\
                      In q (player_ids db) /\
                      forall v, In (Some v) (numeric_fields e') -> lt_zero v = false) /\
      NoDup (map entry_key (l1 ++ [JObject e])))).
Proof.
  intros Hes Hbad. unfold add_match_performance.
  destruct (negb (rq_is_dict req)); [split; [reflexivity|now left]|].
  rewrite Hes. destruct es as [|x es'].
  { destruct Hbad as [(e & v & [] & _)|(l1 & e1 & l2 & e2 & l3 & Heq & _)].
    destruct l1; discriminate. }
  destruct (validate_entries _ [] _) as [c|vs] eqn:E.
  - split; [reflexivity|]. cbn [fst].
    destruct (validate_error_status _ _ _ _ E) as [H|[H _]]; [now left|].
    right. split; [exact H|]. subst c.
    destruct (validate_404_prefix _ _ _ E) as (l1 & e & l2 & pid & H1 & H2 & H3 & H4 & H5 & _).
    exists l1, e, l2, pid. split; [exact H1|]. split; [exact H2|]. split; [|split].
    + intros Hin. assert (Hx : existsb (Z.eqb pid) (player_ids db) = true).
      { apply existsb_exists. exists pid. split; [exact Hin|apply Z.eqb_refl]. }
      rewrite Hx in H3. discriminate.
    + intros j Hj. destruct (H4 j Hj) as (e' & q & Hj' & Hq & Hex & Hst).
      exists e', q. split; [exact Hj'|]. split; [exact Hq|]. split.
      * apply existsb_exists in Hex as [q' [Hq' Heq]]. apply Z.eqb_eq in Heq. subst q'.
        exact Hq'.
      * intros v Hv. destruct (lt_zero v) eqn:Hlt; [|reflexivity].
        rewrite (negative_stat_invalid e' v Hv Hlt) in Hst. discriminate.
    + exact H5.
  - exfalso. destruct Hbad as [(e & v & H1 & H2 & H3)|(l1 & e1 & l2 & e2 & l3 & Heq & Hid)].
    + exact (validate_negative_not_ok _ _ _ e v vs H1 H2 H3 E).
    + rewrite Heq in E. exact (validate_duplicate_not_ok _ _ l1 e1 l2 e2 l3 vs Hid E).
Qed.

Lemma add_match_performance_rejects_witness :
  let req := mkRequest true None None None
               (Some [JObject (no_stats (VInt 10)); JObject (no_stats (VInt 10))]) in
  snd (add_match_performance (fun _ _ d => (201, d)) req league) = league /\
  (fst (add_match_performance (fun _ _ d => (201, d)) req league) = 400 \/
   (fst (add_match_performance (fun _ _ d => (201, d)) req league) = 404 /\
    exists l1 e l2 pid,
      [JObject (no_stats (VInt 10)); JObject (no_stats (VInt 10))] = l1 ++ JObject e :: l2 /\
      player_id_key (pe_player_id e) = Some pid /\ ~ In pid (player_ids league) /\
      (forall j, In j l1 ->
         exists e' q, j = JObject e' /\ player_id_key (pe_player_id e') = Some q /\
                      In q (player_ids league) /\
                      forall v, In (Some v) (numeric_fields e') -> lt_zero v = false) /\
      NoDup (map entry_key (l1 ++ [JObject e])))).
Proof.
  apply add_match_performance_rejects; [reflexivity|].
  right. exists [], (no_stats (VInt 10)), [], (no_stats (VInt 10)), []. split; reflexivity.
Defined.

(** A submission listing player 7, who does not exist, twice is refused
    with 404 (player not found), not with a validation error: the
    existence check of the first entry runs before the duplicate check of
    the second. *)
Lemma add_match_performance_duplicate_404 :
  fst (add_match_performance (fun _ _ d => (201, d))
         (mkRequest true None None None
            (Some [JObject (no_stats (VInt 7)); JObject (no_stats (VInt 7))]))
         league) = 404.
Proof. reflexivity. Qed.

(* ------------------------------------------------------------------ *)
(** ** More of [TeamPlayer]: roster invariants *)

Lemma same_pair_set_removed t p r t' p' tp :
  same_pair t' p'
    (if same_pair t p tp
     then mkTeamPlayer (tp_team_id tp) (tp_player_id tp) (is_captain tp) (added_date tp) r
     else tp) = same_pair t' p' tp.
Proof. destruct (same_pair t p tp); reflexivity. Qed.

Lemma pair_rows_set_removed_length t p r t' p' tps :
  length (List.filter (same_pair t' p') (set_removed t p r tps)) =
  length (List.filter (same_pair t' p') tps).
Proof.
  induction tps as [|tp tps IH]; [reflexivity|].
  cbn [set_removed map List.filter]. fold (set_removed t p r tps).
  rewrite same_pair_set_removed. destruct (same_pair t' p' tp); simpl; lia.
Qed.

Lemma latest_added_in rows prev : latest_added rows = Some prev -> In prev rows.
Proof.
  unfold latest_added. intros H.
  destruct (order_by (fun tp => - added_date tp) rows) as [|x l] eqn:E; [discriminate|].
  injection H as <-.
  apply (Permutation_in _ (order_by_perm (fun tp => - added_date tp) rows)).
  rewrite E. left. reflexivity.
Qed.

Lemma latest_added_none rows : latest_added rows = None -> rows = [].
Proof.
  unfold latest_added. intros H.
  destruct (order_by (fun tp => - added_date tp) rows) as [|x l] eqn:E; [|discriminate].
  apply order_by_nil in E. exact E.
Qed.

(** [add_player] on a pair with an active row returns an active row of
    the pair, adds no row and logs nothing: the session is only flushed. *)
Theorem add_player_active_noop now t p c mid db row :
  In row (pair_rows db t p) -> removed_date row = None ->
  exists existing,
    fst (add_player now t p c mid db) = existing /\
    In existing (pair_rows (snd (add_player now t p c mid db)) t p) /\
    removed_date existing = None /\
    snd (add_player now t p c mid db) = autoflush (restamp now db).
Proof.
  intros Hin Hr. unfold add_player. cbn [team_players autoflush].
  destruct (List.find _ (team_players (restamp now db))) as [existing|] eqn:F.
  - exists existing. apply List.find_some in F as [Hx Hf].
    apply andb_true_iff in Hf as [Hs Hn].
    split; [reflexivity|]. split.
    + apply filter_In. split; assumption.
    + split; [|reflexivity]. destruct (removed_date existing); [discriminate|reflexivity].
  - exfalso. apply filter_In in Hin as [Hin Hs].
    pose proof (List.find_none _ _ F (restamp_row now (unflushed db) row)) as H.
    destruct (restamp_row_fields now (unflushed db) row) as (_ & _ & _ & Hm).
    cbn [team_players restamp] in H. specialize (H (in_map _ _ _ Hin)).
    rewrite same_pair_restamp, Hs, Hm, Hr in H. discriminate.
Qed.

Lemma add_player_active_noop_witness :
  exists existing,
    fst (add_player 500 1 10 false None league) = existing /\
    In existing (pair_rows (snd (add_player 500 1 10 false None league)) 1 10) /\
    removed_date existing = None /\
    snd (add_player 500 1 10 false None league) = autoflush (restamp 500 league).
Proof.
  apply (add_player_active_noop 500 1 10 false None league (mkTeamPlayer 1 10 true (day 1) None)).
  - simpl. left. reflexivity.
  - reflexivity.
Defined.

(** [add_player] inserts a row only for a pair that has none; so it and
    [remove_player] keep at most one row per [(team, player)] pair (the
    composite primary key is never violated). *)
Theorem roster_pairs_unique now t p c mid (db : DB) :
  (forall t' p', (length (pair_rows db t' p') <= 1)%nat) ->
  (forall t' p', (length (pair_rows (snd (add_player now t p c mid db)) t' p') <= 1)%nat) /\
  (forall t' p', (length (pair_rows (remove_player now t p mid db) t' p') <= 1)%nat).
Proof.
  intros Huniq.
  assert (Hre : forall t' p', (length (pair_rows (restamp now db) t' p') <= 1)%nat)
    by (intros t' p'; rewrite pair_rows_restamp, length_map; apply Huniq).
  split; intros t' p'.
  - unfold add_player. cbn [team_players autoflush unflushed history].
    destruct (List.find _ (team_players (restamp now db))) as [existing|] eqn:F;
      [apply Hre|].
    assert (Hnew : pair_rows (restamp now db) t p = [] ->
                   (length (List.filter (same_pair t' p')
                      (team_players (restamp now db) ++ [mkTeamPlayer t p c now None]))
                    <= 1)%nat).
    { intros Hrows.
      rewrite List.filter_app, length_app.
      destruct (same_pair t' p' (mkTeamPlayer t p c now None)) eqn:E.
      - apply same_pair_true in E as [E1 E2]. simpl in E1, E2. subst.
        fold (pair_rows (restamp now db) t' p'). rewrite Hrows. simpl.
        rewrite same_pair_refl. simpl. lia.
      - cbn [List.filter]. rewrite E. cbn [length].
        specialize (Hre t' p'). unfold pair_rows in Hre. lia. }
    destruct (latest_added _) as [prev|] eqn:L.
    + destruct (removed_date prev) eqn:R.
      * unfold pair_rows. cbn [snd team_players with_roster].
        rewrite pair_rows_set_removed_length. apply Hre.
      * apply Hnew. exfalso. apply latest_added_in in L.
        apply filter_In in L as [Lin Ls].
        pose proof (List.find_none _ _ F prev Lin) as H. simpl in H.
        rewrite Ls, R in H. discriminate.
    + apply Hnew. apply latest_added_none in L. exact L.
  - unfold remove_player.
    destruct (negb (existsb _ _)); unfold pair_rows; cbn [team_players with_roster];
      rewrite pair_rows_set_removed_length; apply Hre.
Qed.

Lemma roster_pairs_unique_witness :
  (forall t' p', (length (pair_rows (snd (add_player 500 1 12 false None league)) t' p') <= 1)%nat) /\
  (forall t' p', (length (pair_rows (remove_player 500 1 12 None league) t' p') <= 1)%nat).
Proof.
  apply roster_pairs_unique. intros t' p'. unfold pair_rows. cbn [team_players league List.filter].
  destruct (same_pair t' p' (mkTeamPlayer 1 10 true (day 1) None)) eqn:E1,
           (same_pair t' p' (mkTeamPlayer 1 11 false (day 1) (Some (day 10)))) eqn:E2;
    cbn [length]; try lia.
  apply same_pair_true in E1, E2. simpl in E1, E2. lia.
Defined.

(** A row that [add_player] creates and [remove_player] marks removed in
    the same session, before any flush, is written by one INSERT at the
    next flush (here the commit): its [added_date], its [removed_date] and
    the [change_date] of its [add] history row all take the flush's time,
    that of the removal; and no [remove] is logged, as the object was
    pending, not persistent. *)
Theorem add_then_remove_same_session now1 now2 t p c (m1 m2 : option Z) (db : DB) :
  pair_rows db t p = [] -> pair_history db t p = [] ->
  let db2 := commit (remove_player now2 t p m2 (snd (add_player now1 t p c m1 db))) in
  pair_rows db2 t p = [mkTeamPlayer t p c now2 (Some now2)] /\
  pair_log db2 t p = [mkHistory t p "add" now2 m1].
Proof.
  intros Hr Hh. cbv zeta. rewrite add_player_fresh by exact Hr.
  assert (Hr' : List.filter (same_pair t p) (team_players (restamp now1 db)) = [])
    by (fold (pair_rows (restamp now1 db) t p); rewrite pair_rows_restamp, Hr; reflexivity).
  assert (Hh' : pair_log (restamp now1 db) t p = []).
  { apply (map_eq_nil action). change (pair_history (restamp now1 db) t p = []).
    rewrite pair_history_restamp. exact Hh. }
  unfold pair_log in Hh'.
  set (X := team_players (restamp now1 db)) in *.
  set (Y := history (restamp now1 db)) in *.
  unfold remove_player. cbn [restamp unflushed with_roster team_players history].
  cbn [existsb is_pending_insert]. rewrite !Z.eqb_refl. cbn [andb orb negb].
  split.
  - unfold pair_rows. cbn [team_players commit autoflush with_roster].
    rewrite filter_set_removed, filter_map_inv by apply same_pair_restamp.
    rewrite List.filter_app, Hr'. cbn [app List.filter]. rewrite same_pair_refl.
    cbn [map]. unfold restamp_row.
    cbn [tp_team_id tp_player_id existsb is_pending_insert].
    rewrite !Z.eqb_refl. reflexivity.
  - unfold pair_log. cbn [history commit autoflush with_roster List.filter length].
    cbn [is_pending_history].
    rewrite restamp_history_last, List.filter_app, Hh'. cbn.
    rewrite !Z.eqb_refl. reflexivity.
Qed.

Lemma add_then_remove_same_session_witness :
  let db2 := commit (remove_player 200 1 12 None (snd (add_player 100 1 12 false None league))) in
  pair_rows db2 1 12 = [mkTeamPlayer 1 12 false 200 (Some 200)] /\
  pair_log db2 1 12 = [mkHistory 1 12 "add" 200 None].
Proof. apply add_then_remove_same_session; reflexivity. Defined.

(* ------------------------------------------------------------------ *)
(** ** [reset_player_points], [delete_game] and the players listing *)

Lemma update_keeps_data ok db :
  let db' := snd (update_team_total_points ok db) in
  matches db' = matches db /\ performances db' = performances db /\
  team_players db' = team_players db /\ player_ids db' = player_ids db.
Proof.
  unfold update_team_total_points.
  destruct (order_by match_date (matches db)); [repeat split|].
  destruct (teams db); [repeat split|]. destruct ok; repeat split.
Qed.

Lemma sql_sum_default l acc :
  default 0 (fold_left (fun acc o => match o with
                                     | None => acc
                                     | Some z => Some (default 0 acc + z)
                                     end) l acc)
  = default 0 acc + sumZ (map (default 0) l).
Proof.
  revert acc. induction l as [|o l IH]; intros acc; simpl; [lia|].
  rewrite IH. destruct o as [z|]; simpl; lia.
Qed.

(** The listed [total_points] of a player is the sum of the non-null
    [points] of the player's performance rows, 0 when there are none. *)
Theorem player_total_points_sum db pid :
  player_total_points db pid = sumZ (map (fun p => default 0 (points p)) (player_rows db pid)).
Proof.
  unfold player_total_points, sql_sum. rewrite sql_sum_default, map_map. reflexivity.
Qed.

Lemma insert_by_head_min {A} (key : A -> Z) x acc :
  (forall h t, acc = h :: t -> forall y, In y acc -> key h <= key y) ->
  forall h t, insert_by key x acc = h :: t -> forall y, In y (insert_by key x acc) -> key h <= key y.
Proof.
  intros Hacc h t E y Hy.
  destruct acc as [|a acc'].
  - simpl in E. injection E as <- <-. simpl in Hy. destruct Hy as [<-|[]]. lia.
  - pose proof (Hacc a acc' eq_refl) as Ha.
    simpl in E. destruct (key a <=? key x) eqn:K.
    + injection E as <- _. apply Z.leb_le in K.
      apply (Permutation_in _ (insert_by_perm key x _)) in Hy.
      destruct Hy as [<-|Hy]; [exact K|apply Ha; exact Hy].
    + injection E as <- _. apply Z.leb_gt in K.
      apply (Permutation_in _ (insert_by_perm key x _)) in Hy.
      destruct Hy as [<-|Hy]; [lia|]. specialize (Ha y Hy). lia.
Qed.

Lemma order_by_head_min {A} (key : A -> Z) l h t :
  order_by key l = h :: t -> In h l /\ forall y, In y l -> key h <= key y.
Proof.
  intros E.
  assert (Hmin : forall acc,
            (forall h t, acc = h :: t -> forall y, In y acc -> key h <= key y) ->
            forall h t, fold_left (fun acc x => insert_by key x acc) l acc = h :: t ->
            forall y, In y (fold_left (fun acc x => insert_by key x acc) l acc) ->
            key h <= key y).
  { clear E. induction l as [|x l IH]; intros acc Hacc; simpl; [exact Hacc|].
    apply IH. apply insert_by_head_min. exact Hacc. }
  split.
  - apply (Permutation_in _ (order_by_perm key l)). rewrite E. left. reflexivity.
  - intros y Hy. apply (Hmin [] (fun h t E _ _ => ltac:(discriminate E)) h t E).
    unfold order_by in E. rewrite E.
    apply (Permutation_in _ (Permutation_sym (order_by_perm key l))) in Hy.
    unfold order_by in Hy. rewrite E in Hy. exact Hy.
Qed.

(** The listed [latest_performance] is [None] exactly when the player has
    no performance row, and otherwise one of the player's rows with the
    greatest [match_id]. *)
Theorem latest_performance_spec db pid :
  (latest_performance db pid = None <-> player_rows db pid = []) /\
  (forall x, latest_performance db pid = Some x ->
     In x (player_rows db pid) /\
     forall y, In y (player_rows db pid) -> perf_match_id y <= perf_match_id x).
Proof.
  unfold latest_performance. split.
  - destruct (order_by _ (rev (player_rows db pid))) as [|h t] eqn:E; simpl.
    + apply order_by_nil in E. split; [intros _|intros _; reflexivity].
      destruct (player_rows db pid) as [|x l]; [reflexivity|].
      simpl in E. destruct (rev l); discriminate.
    + split; [discriminate|]. intros Hn. rewrite Hn in E. discriminate.
  - intros x H.
    destruct (order_by _ (rev (player_rows db pid))) as [|h t] eqn:E; [discriminate|].
    injection H as <-. apply order_by_head_min in E as [Hin Hmin]. split.
    + apply in_rev. exact Hin.
    + intros y Hy. specialize (Hmin y (proj1 (in_rev _ _) Hy)). lia.
Qed.

Lemma filter_filter_perf (f g : PlayerPerformance -> bool) l :
  List.filter f (List.filter g l) = List.filter (fun p => g p && f p) l.
Proof.
  induction l as [|x l IH]; simpl; [reflexivity|].
  destruct (g x); simpl; [destruct (f x); [f_equal|]|]; exact IH.
Qed.

Lemma filter_drop_self pid l :
  List.filter (fun p => negb (perf_player_id p =? pid) && (perf_player_id p =? pid)) l = [].
Proof.
  induction l as [|x l IH]; simpl; [reflexivity|].
  destruct (perf_player_id x =? pid); simpl; exact IH.
Qed.

Lemma filter_drop_other pid q l :
  q <> pid ->
  List.filter (fun p => negb (perf_player_id p =? pid) && (perf_player_id p =? q)) l =
  List.filter (fun p => perf_player_id p =? q) l.
Proof.
  intros Hq. induction l as [|x l IH]; simpl; [reflexivity|].
  destruct (perf_player_id x =? q) eqn:E; simpl.
  - apply Z.eqb_eq in E. replace (perf_player_id x =? pid) with false
      by (symmetry; apply Z.eqb_neq; congruence). simpl. f_equal. exact IH.
  - destruct (perf_player_id x =? pid); exact IH.
Qed.

(** After [reset_player_points] on an existing player, whether the final
    recompute commits or fails, the players listing shows 0 points and
    no latest performance for that player, and every other player's
    performance rows are as before. *)
Theorem reset_player_points_clears commit_ok pid db :
  In pid (player_ids db) ->
  let db' := snd (reset_player_points commit_ok pid db) in
  player_total_points db' pid = 0 /\ latest_performance db' pid = None /\
  (forall q, q <> pid -> player_rows db' q = player_rows db q).
Proof.
  intros Hin. cbv zeta. unfold reset_player_points.
  replace (existsb (Z.eqb pid) (player_ids db)) with true
    by (symmetry; apply existsb_exists; exists pid; split; [exact Hin|apply Z.eqb_refl]).
  cbn [negb].
  set (db1 := commit (mkDB _ _ _ _ _ _ _)).
  assert (Hp : performances (snd (update_team_total_points commit_ok db1)) =
               List.filter (fun p => negb (perf_player_id p =? pid)) (performances db))
    by (rewrite (proj1 (proj2 (update_keeps_data commit_ok db1))); reflexivity).
  assert (Hrows : forall q, player_rows (snd (match update_team_total_points commit_ok db1 with
                                              | (Returned _, db2) => (200, db2)
                                              | (Raised, db2) => (500, db2) end)) q =
                            List.filter (fun p => perf_player_id p =? q)
                              (List.filter (fun p => negb (perf_player_id p =? pid))
                                           (performances db))).
  { intros q. unfold player_rows.
    destruct (update_team_total_points commit_ok db1) as [[v|] db2] eqn:U;
      simpl in Hp |- *; rewrite Hp; reflexivity. }
  assert (Hnil : player_rows (snd (match update_team_total_points commit_ok db1 with
                                   | (Returned _, db2) => (200, db2)
                                   | (Raised, db2) => (500, db2) end)) pid = []).
  { rewrite Hrows, filter_filter_perf. apply filter_drop_self. }
  split; [|split].
  - rewrite player_total_points_sum, Hnil. reflexivity.
  - unfold latest_performance. rewrite Hnil. reflexivity.
  - intros q Hq. rewrite Hrows, filter_filter_perf. unfold player_rows.
    apply filter_drop_other. exact Hq.
Qed.

Lemma reset_player_points_clears_witness :
  let db' := snd (reset_player_points false 10 league) in
  player_total_points db' 10 = 0 /\ latest_performance db' 10 = None /\
  (forall q, q <> 10 -> player_rows db' q = player_rows league q).
Proof. apply reset_player_points_clears. simpl. tauto. Defined.

(** When the recompute's commit fails, [reset_player_points] answers 500
    although the player's performance rows are already deleted (their
    deletion was committed first); the stored team totals keep the
    deleted points. *)
Theorem reset_player_points_failure_partial pid db :
  In pid (player_ids db) -> matches db <> [] -> teams db <> [] ->
  fst (reset_player_points false pid db) = 500 /\
  player_rows (snd (reset_player_points false pid db)) pid = [] /\
  teams (snd (reset_player_points false pid db)) = teams db.
Proof.
  intros Hin Hm Ht. unfold reset_player_points.
  replace (existsb (Z.eqb pid) (player_ids db)) with true
    by (symmetry; apply existsb_exists; exists pid; split; [exact Hin|apply Z.eqb_refl]).
  cbn [negb]. rewrite update_team_total_points_run by assumption. cbv zeta. cbn.
  split; [reflexivity|split; [|reflexivity]].
  unfold player_rows. cbn [performances]. rewrite filter_filter_perf.
  apply filter_drop_self.
Qed.

Lemma reset_player_points_failure_partial_witness :
  fst (reset_player_points false 10 league) = 500 /\
  player_rows (snd (reset_player_points false 10 league)) 10 = [] /\
  teams (snd (reset_player_points false 10 league)) = teams league.
Proof. apply reset_player_points_failure_partial; simpl; [tauto|discriminate|discriminate]. Defined.

(** When the recompute's commit fails, [delete_game] answers 500 although
    the match and its performance rows are already deleted; the stored
    team totals keep the match's points. *)
Theorem delete_game_failure_partial (db : DB) (M M' : Match) :
  In M (matches db) -> In M' (matches db) -> match_id M' <> match_id M -> teams db <> [] ->
  fst (delete_game false (match_id M) db) = 500 /\
  (forall m, In m (matches (snd (delete_game false (match_id M) db))) -> match_id m <> match_id M) /\
  (forall p, In p (performances (snd (delete_game false (match_id M) db))) ->
             perf_match_id p <> match_id M) /\
  teams (snd (delete_game false (match_id M) db)) = teams db.
Proof.
  intros HM HM' Hne Ht. unfold delete_game.
  destruct (List.find (fun m => match_id m =? match_id M) (matches db)) as [game|] eqn:F.
  2:{ exfalso. pose proof (List.find_none _ _ F M HM) as H. simpl in H.
      rewrite Z.eqb_refl in H. discriminate. }
  rewrite update_team_total_points_run.
  - cbv zeta. cbn [fst snd]. split; [reflexivity|]. split; [|split; [|reflexivity]].
    + intros m Hm. apply filter_In in Hm as [_ Hm].
      apply negb_true_iff, Z.eqb_neq in Hm. exact Hm.
    + intros p Hp. apply filter_In in Hp as [_ Hp].
      apply negb_true_iff, Z.eqb_neq in Hp. exact Hp.
  - intros E. assert (H : In M' (matches (remove_game (match_id M) db))).
    { apply filter_In. split; [exact HM'|]. apply negb_true_iff, Z.eqb_neq. exact Hne. }
    rewrite E in H. destruct H.
  - exact Ht.
Qed.

Lemma delete_game_failure_partial_witness :
  fst (delete_game false (match_id (mkMatch 1 "M1" (day 5))) league) = 500 /\
  (forall m, In m (matches (snd (delete_game false (match_id (mkMatch 1 "M1" (day 5))) league))) ->
             match_id m <> match_id (mkMatch 1 "M1" (day 5))) /\
  (forall p, In p (performances (snd (delete_game false (match_id (mkMatch 1 "M1" (day 5))) league))) ->
             perf_match_id p <> match_id (mkMatch 1 "M1" (day 5))) /\
  teams (snd (delete_game false (match_id (mkMatch 1 "M1" (day 5))) league)) = teams league.
Proof.
  apply (delete_game_failure_partial league (mkMatch 1 "M1" (day 5)) (mkMatch 2 "M2" (day 15)));
    simpl; [tauto|tauto|discriminate|discriminate].
Defined.

(* ------------------------------------------------------------------ *)
(** ** [AppSettings] and the team-updates lock *)

Lemma find_update_setting_same key value descr l s0 :
  List.find (fun s => String.eqb (setting_key s) key) l = Some s0 ->
  exists s, List.find (fun s => String.eqb (setting_key s) key)
                      (update_setting key value descr l) = Some s /\ setting_value s = value.
Proof.
  induction l as [|s l IH]; simpl; [discriminate|].
  destruct (String.eqb (setting_key s) key) eqn:E.
  - intros _. eexists. simpl. rewrite E. split; reflexivity.
  - intros H. simpl. rewrite E. apply IH. exact H.
Qed.

Lemma find_update_setting_other key key' value descr l :
  key' <> key ->
  List.find (fun s => String.eqb (setting_key s) key') (update_setting key value descr l) =
  List.find (fun s => String.eqb (setting_key s) key') l.
Proof.
  intros Hne. induction l as [|s l IH]; simpl; [reflexivity|].
  destruct (String.eqb (setting_key s) key) eqn:E; simpl.
  - apply String.eqb_eq in E. rewrite E.
    replace (String.eqb key key') with false
      by (symmetry; apply String.eqb_neq; congruence). reflexivity.
  - rewrite IH. reflexivity.
Qed.

Lemma find_app_setting key l s :
  List.find (fun s => String.eqb (setting_key s) key) (l ++ [s]) =
  match List.find (fun s => String.eqb (setting_key s) key) l with
  | Some x => Some x
  | None => if String.eqb (setting_key s) key then Some s else None
  end.
Proof.
  induction l as [|x l IH]; simpl; [reflexivity|].
  destruct (String.eqb (setting_key x) key); [reflexivity|exact IH].
Qed.

Lemma map_key_update_setting key value descr l :
  map setting_key (update_setting key value descr l) = map setting_key l.
Proof.
  induction l as [|s l IH]; simpl; [reflexivity|].
  destruct (String.eqb (setting_key s) key); simpl; [reflexivity|]. f_equal. exact IH.
Qed.

(** [set_setting] then [get_setting] on the same key returns the value
    just set; any other key reads as before. *)
Theorem set_get_setting settings key value descr :
  (forall default, get_setting (set_setting settings key value descr) key default = value) /\
  (forall key' default, key' <> key ->
     get_setting (set_setting settings key value descr) key' default =
     get_setting settings key' default).
Proof.
  split.
  - intros default. unfold get_setting, set_setting.
    destruct (List.find _ settings) as [s0|] eqn:F.
    + destruct (find_update_setting_same key value descr settings s0 F) as [s [-> Hv]].
      exact Hv.
    + rewrite find_app_setting, F. simpl. rewrite String.eqb_refl. reflexivity.
  - intros key' default Hne. unfold get_setting, set_setting.
    destruct (List.find (fun s => String.eqb (setting_key s) key) settings) eqn:F.
    + rewrite find_update_setting_other by exact Hne. reflexivity.
    + rewrite find_app_setting. simpl.
      destruct (List.find (fun s => String.eqb (setting_key s) key') settings); [reflexivity|].
      replace (String.eqb key key') with false
        by (symmetry; apply String.eqb_neq; congruence). reflexivity.
Qed.

(** [set_setting] never creates a second row for a key. *)
Theorem set_setting_keys_unique settings key value descr :
  NoDup (map setting_key settings) ->
  NoDup (map setting_key (set_setting settings key value descr)).
Proof.
  intros Hnd. unfold set_setting.
  destruct (List.find (fun s => String.eqb (setting_key s) key) settings) eqn:F.
  - rewrite map_key_update_setting. exact Hnd.
  - rewrite map_app. simpl. apply NoDup_app. split; [exact Hnd|]. split.
    + intros k Hk Hk'. apply list_elem_of_In in Hk. apply list_elem_of_singleton in Hk'.
      subst k. apply in_map_iff in Hk as [s [Hs Hin]].
      pose proof (List.find_none _ _ F s Hin) as H. simpl in H.
      rewrite Hs, String.eqb_refl in H. discriminate.
    + apply NoDup_singleton.
Qed.

Lemma set_setting_keys_unique_witness :
  NoDup (map setting_key (set_setting [mkSetting "team_updates_locked" "true" None]
                                       "season" "2025" None)).
Proof. apply set_setting_keys_unique. simpl. apply NoDup_singleton. Defined.

(** [toggle_team_updates] reports the negation of the previous lock
    state, and the status route then reads that new state; so two
    toggles give back the original state. *)
Theorem toggle_team_updates_flips settings :
  fst (toggle_team_updates settings) = negb (get_team_updates_status settings) /\
  get_team_updates_status (snd (toggle_team_updates settings)) =
    fst (toggle_team_updates settings) /\
  get_team_updates_status (snd (toggle_team_updates (snd (toggle_team_updates settings)))) =
    get_team_updates_status settings.
Proof.
  assert (H : forall s, get_team_updates_status (snd (toggle_team_updates s)) =
                        negb (get_team_updates_status s)).
  { intros s. unfold toggle_team_updates. cbn [snd].
    unfold get_team_updates_status at 1.
    rewrite (proj1 (set_get_setting _ _ _ _)).
    destruct (negb (get_team_updates_status s)); reflexivity. }
  split; [reflexivity|]. split.
  - rewrite H. reflexivity.
  - rewrite !H. apply negb_involutive.
Qed.

(* ------------------------------------------------------------------ *)
(** ** [NewsContent] *)

(** With at most one news row (which [set_latest] keeps), [get_latest]
    after [set_latest] returns the content just set. *)
Theorem set_get_latest now fresh_id content_json news :
  (length news <= 1)%nat ->
  get_latest (set_latest now fresh_id content_json news) = Some content_json /\
  length (set_latest now fresh_id content_json news) = 1%nat.
Proof.
  intros Hlen. destruct news as [|n [|n' rest]]; [| |simpl in Hlen; lia].
  - split; reflexivity.
  - unfold set_latest. destruct (String.eqb (content n) content_json) eqn:E.
    + apply String.eqb_eq in E. rewrite <- E. split; reflexivity.
    + split; reflexivity.
Qed.

Lemma set_get_latest_witness :
  get_latest (set_latest 300 1 "{}" [mkNews 1 "[]" 100]) = Some "{}"%string /\
  length (set_latest 300 1 "{}" [mkNews 1 "[]" 100]) = 1%nat.
Proof. apply set_get_latest. simpl. lia. Defined.

(* ------------------------------------------------------------------ *)
(** ** [delete_user] *)

(** [delete_user] changes nothing unless it answers 200, and it answers
    200 only for a requester whose email is the Grandslam address and
    whose admin flag is set, on an existing user other than the requester. *)
Theorem delete_user_guard commit_ok req_email req_is_admin req_user_id target acc :
  let r := delete_user commit_ok req_email req_is_admin req_user_id target acc in
  (fst r <> 200 -> snd r = acc) /\
  (fst r = 200 ->
   is_grandslam_email req_email = true /\ admin_flag req_is_admin = true /\
   exists user, In user (users acc) /\ user_id user = target /\
                py_eq_int req_user_id target = false).
Proof.
  cbv zeta. unfold delete_user.
  destruct (is_grandslam_email req_email && admin_flag req_is_admin) eqn:G;
    cbn [negb]; [|split; [reflexivity|discriminate]].
  destruct (List.find (fun u => user_id u =? target) (users acc)) as [user|] eqn:F;
    [|split; [reflexivity|discriminate]].
  destruct (py_eq_int req_user_id (user_id user)) eqn:S; [split; [reflexivity|discriminate]|].
  destruct commit_ok; cbn [negb]; [|split; [reflexivity|discriminate]].
  assert (Hc : is_grandslam_email req_email = true /\ admin_flag req_is_admin = true /\
                exists user, In user (users acc) /\ user_id user = target /\
                             py_eq_int req_user_id target = false).
  { apply andb_true_iff in G as [G1 G2].
    apply List.find_some in F as [Fin Fid]. apply Z.eqb_eq in Fid.
    split; [exact G1|split; [exact G2|]].
    exists user. split; [exact Fin|split; [exact Fid|rewrite <- Fid; exact S]]. }
  destruct (List.find _ (team_owner acc)) as [[tid uid]|];
    (split; [intros H; exfalso; apply H; reflexivity|intros _; exact Hc]).
Qed.

(** A successful [delete_user] removes the user, the user's team and all
    of that team's roster rows; every other user, team and roster row,
    the roster history and the performances are kept. *)
Theorem delete_user_removes_team req_email req_is_admin req_user_id target acc tid :
  In (tid, target) (team_owner acc) -> NoDup (map snd (team_owner acc)) ->
  fst (delete_user true req_email req_is_admin req_user_id target acc) = 200 ->
  let acc' := snd (delete_user true req_email req_is_admin req_user_id target acc) in
  (forall u, In u (users acc') <-> In u (users acc) /\ user_id u <> target) /\
  (forall t, In t (teams (league_db acc')) <-> In t (teams (league_db acc)) /\ team_id t <> tid) /\
  (forall tp, In tp (team_players (league_db acc')) <->
              In tp (team_players (league_db acc)) /\ tp_team_id tp <> tid) /\
  history (league_db acc') = history (league_db acc) /\
  performances (league_db acc') = performances (league_db acc).
Proof.
  intros Hown Hnd H200. unfold delete_user in *.
  destruct (is_grandslam_email req_email && admin_flag req_is_admin); cbn [negb] in *;
    [|discriminate].
  destruct (List.find (fun u => user_id u =? target) (users acc)) as [user|] eqn:F;
    [|discriminate].
  apply List.find_some in F as [_ Fid]. apply Z.eqb_eq in Fid.
  destruct (py_eq_int req_user_id (user_id user)); [discriminate|]. cbn [negb] in *.
  rewrite Fid in *.
  destruct (List.find (fun '(_, uid) => uid =? target) (team_owner acc)) as [[tid' uid]|] eqn:O.
  - assert (Etid : tid' = tid).
    { apply List.find_some in O as [Oin Ouid]. apply Z.eqb_eq in Ouid. subst uid.
      clear -Oin Hown Hnd. induction (team_owner acc) as [|[a b] l IH]; [destruct Oin|].
      simpl in Hnd. apply NoDup_cons in Hnd as [Hb Hnd].
      destruct Oin as [E|Oin], Hown as [E'|Hown].
      + congruence.
      + injection E as -> ->. exfalso. apply Hb. apply list_elem_of_In.
        apply in_map_iff. exists (tid, target). split; [reflexivity|exact Hown].
      + injection E' as -> ->. exfalso. apply Hb. apply list_elem_of_In.
        apply in_map_iff. exists (tid', target). split; [reflexivity|exact Oin].
      + apply IH; assumption. }
    subst tid'. cbn [snd users teams team_players history performances league_db].
    split; [|split; [|split; [|split]]]; try reflexivity;
      intros x; rewrite filter_In, negb_true_iff, Z.eqb_neq; reflexivity.
  - exfalso. pose proof (List.find_none _ _ O (tid, target) Hown) as H. simpl in H.
    rewrite Z.eqb_refl in H. discriminate.
Qed.

(** Two users, the second owning team 1 of [league]. *)
Definition accounts : Accounts :=
  mkAccounts [mkUser 1 "grandslam@doonschool.com"; mkUser 2 "student@doonschool.com"]
             [(1, 2)] league.

Lemma delete_user_removes_team_witness :
  let acc' := snd (delete_user true (Some (VStr "GrandSlam@DoonSchool.com")) (Some (VBool true))
                               (Some (VInt 1)) 2 accounts) in
  (forall u, In u (users acc') <-> In u (users accounts) /\ user_id u <> 2) /\
  (forall t, In t (teams (league_db acc')) <-> In t (teams (league_db accounts)) /\ team_id t <> 1) /\
  (forall tp, In tp (team_players (league_db acc')) <->
              In tp (team_players (league_db accounts)) /\ tp_team_id tp <> 1) /\
  history (league_db acc') = history (league_db accounts) /\
  performances (league_db acc') = performances (league_db accounts).
Proof.
  apply delete_user_removes_team.
  - simpl. left. reflexivity.
  - simpl. apply NoDup_singleton.
  - vm_compute. reflexivity.
Defined.

(* ------------------------------------------------------------------ *)
(** ** [create_game] *)

(** [create_game] changes nothing unless it answers 201; then it has
    appended one match with the given name (absent before) and the
    parsed date.  So match names stay unique. *)
Theorem create_game_names_unique fromisoformat fresh_id name date_str db :
  NoDup (map match_name (matches db)) ->
  let r := create_game fromisoformat fresh_id name date_str db in
  NoDup (map match_name (matches (snd r))) /\
  (fst r <> 201 -> snd r = db) /\
  (fst r = 201 ->
   exists n ds d, name = Some n /\ date_str = Some ds /\ fromisoformat ds = Some d /\
     ~ In n (map match_name (matches db)) /\
     matches (snd r) = matches db ++ [mkMatch fresh_id n d]).
Proof.
  intros Hnd. cbv zeta. unfold create_game.
  destruct name as [[|c n]|]; [repeat split; auto; discriminate| |repeat split; auto; discriminate].
  destruct date_str as [[|c' d]|]; [repeat split; auto; discriminate| |repeat split; auto; discriminate].
  destruct (existsb (fun m => String.eqb (match_name m) (String c n)) (matches db)) eqn:Ex;
    [repeat split; auto; discriminate|].
  assert (Hnot : ~ In (String c n) (map match_name (matches db))).
  { intros Hin. apply in_map_iff in Hin as [m [Hm Hin]].
    assert (existsb (fun m => String.eqb (match_name m) (String c n)) (matches db) = true)
      as Ht by (apply existsb_exists; exists m; split; [exact Hin|apply String.eqb_eq; exact Hm]).
    congruence. }
  destruct (fromisoformat (String c' d)) as [t|] eqn:P; [|repeat split; auto; discriminate].
  cbn [fst snd commit autoflush matches]. split; [|split; [intros H; contradiction H; reflexivity|]].
  - rewrite map_app. simpl. apply NoDup_app. split; [exact Hnd|]. split.
    + intros k Hk Hk'. apply list_elem_of_In in Hk. apply list_elem_of_singleton in Hk'.
      subst k. contradiction.
    + apply NoDup_singleton.
  - intros _. exists (String c n), (String c' d), t. repeat split; assumption.
Qed.

Lemma create_game_names_unique_witness :
  let r := create_game (fun _ => Some (day 20)) 3 (Some "M3"%string) (Some "2025-01-20"%string) league in
  NoDup (map match_name (matches (snd r))) /\
  (fst r <> 201 -> snd r = league) /\
  (fst r = 201 ->
   exists n ds d, Some "M3"%string = Some n /\ Some "2025-01-20"%string = Some ds /\
     (fun _ : string => Some (day 20)) ds = Some d /\
     ~ In n (map match_name (matches league)) /\
     matches (snd r) = matches league ++ [mkMatch 3 n d]).
Proof.
  apply create_game_names_unique.
  apply (bool_decide_unpack _). vm_compute. reflexivity.
Defined.

(* ------------------------------------------------------------------ *)
(** ** [get_user_team] against the recompute *)

Lemma sumZ_map_add {A} (f g : A -> Z) l :
  sumZ (map (fun x => f x + g x) l) = sumZ (map f l) + sumZ (map g l).
Proof. induction l as [|x l IH]; simpl; [reflexivity|]. rewrite IH. lia. Qed.

Lemma sumZ_map_zero {A} l : sumZ (map (fun _ : A => 0) l) = 0.
Proof. induction l as [|x l IH]; simpl; [reflexivity|]. rewrite IH. reflexivity. Qed.

Lemma sumZ_swap {A B} (g : A -> B -> Z) (xs : list A) (ys : list B) :
  sumZ (map (fun x => sumZ (map (g x) ys)) xs) =
  sumZ (map (fun y => sumZ (map (fun x => g x y) xs)) ys).
Proof.
  induction xs as [|x xs IH]; simpl.
  - symmetry. apply sumZ_map_zero.
  - rewrite IH. rewrite (sumZ_map_add (fun y => g x y) (fun y => sumZ (map (fun x => g x y) xs))).
    reflexivity.
Qed.

Lemma sumZ_active d f tps :
  sumZ (map f (active_players tps d)) =
  sumZ (map (fun tp => if is_active tp d then f tp else 0) tps).
Proof.
  unfold active_players. induction tps as [|tp tps IH]; simpl; [reflexivity|].
  destruct (is_active tp d); simpl; rewrite IH; reflexivity.
Qed.

Lemma find_head_filter {A} (f : A -> bool) l : List.find f l = head (List.filter f l).
Proof.
  induction l as [|x l IH]; simpl; [reflexivity|]. destruct (f x); [reflexivity|exact IH].
Qed.

Lemma last_row_short {A} (l : list A) : (length l <= 1)%nat -> last_row l = head l.
Proof. destruct l as [|x [|y l]]; simpl; intros H; [reflexivity|reflexivity|lia]. Qed.

Lemma existsb_filter_pair t p d tps :
  existsb (fun tp => same_pair t p tp && is_active tp d) tps =
  existsb (fun tp => is_active tp d) (List.filter (same_pair t p) tps).
Proof.
  induction tps as [|tp tps IH]; simpl; [reflexivity|].
  destruct (same_pair t p tp); simpl; [f_equal|]; exact IH.
Qed.

Lemma was_on_team_single db t tp d :
  pair_rows db t (tp_player_id tp) = [tp] ->
  was_on_team db t (tp_player_id tp) d = is_active tp d.
Proof.
  intros H. unfold was_on_team. rewrite existsb_filter_pair.
  fold (pair_rows db t (tp_player_id tp)). rewrite H. simpl. apply orb_false_r.
Qed.

Lemma first_performance_dict db pid mid :
  (length (List.filter (fun p => ((perf_player_id p =? pid) && (perf_match_id p =? mid))%Z)
                       (performances db)) <= 1)%nat ->
  first_performance db pid mid = perf_dict (performances_for db mid) !! pid.
Proof.
  intros H. unfold first_performance, performances_for.
  rewrite perf_dict_lookup, filter_filter_perf, find_head_filter.
  rewrite (List.filter_ext (fun p => (perf_match_id p =? mid) && (perf_player_id p =? pid))
                           (fun p => (perf_player_id p =? pid) && (perf_match_id p =? mid)))
    by (intros; apply andb_comm).
  symmetry. apply last_row_short. exact H.
Qed.

Lemma points_while_on_team_fold db ms t tp acc :
  fold_left (fun player_points m =>
      if was_on_team db t (tp_player_id tp) (match_date m) then
        match first_performance db (tp_player_id tp) (match_id m) with
        | Some performance =>
            let pts := default 0 (points performance) in
            player_points + (if is_captain tp then pts * 2 else pts)
        | None => player_points
        end
      else player_points) ms acc
  = acc + sumZ (map (fun m =>
      if was_on_team db t (tp_player_id tp) (match_date m) then
        match first_performance db (tp_player_id tp) (match_id m) with
        | Some performance =>
            let pts := default 0 (points performance) in
            if is_captain tp then pts * 2 else pts
        | None => 0
        end
      else 0) ms).
Proof.
  revert acc. induction ms as [|m ms IH]; intros acc; simpl; [lia|].
  rewrite IH.
  destruct (was_on_team db t (tp_player_id tp) (match_date m));
    [destruct (first_performance db (tp_player_id tp) (match_id m))|]; cbv zeta; lia.
Qed.

(** Under the roster and scoring keys the schema intends (one roster row
    per pair, one performance per player and match) and with every
    rostered player existing, the per-player [total_points_while_on_team]
    of [get_user_team] add up to the total the recompute derives for the
    team. *)
Theorem user_team_points_total db team :
  (forall p, (length (pair_rows db (team_id team) p) <= 1)%nat) ->
  (forall pid mid,
     (length (List.filter (fun p => ((perf_player_id p =? pid) && (perf_match_id p =? mid))%Z)
                          (performances db)) <= 1)%nat) ->
  (forall tp, In tp (team_players db) -> tp_team_id tp = team_id team ->
              In (tp_player_id tp) (player_ids db)) ->
  sumZ (map snd (user_team_points db team)) = team_total db (matches db) team.
Proof.
  intros Hpair Hperf Hexists.
  rewrite <- team_total_order_by.
  set (ms := order_by match_date (matches db)).
  set (TR := List.filter (fun tp => tp_team_id tp =? team_id team) (team_players db)).
  assert (HTR : List.filter (fun tp => existsb (Z.eqb (tp_player_id tp)) (player_ids db)) TR = TR).
  { assert (Hall : forall tp, In tp TR -> existsb (Z.eqb (tp_player_id tp)) (player_ids db) = true).
    { intros tp Hin. apply filter_In in Hin as [Hin Ht]. apply Z.eqb_eq in Ht.
      apply existsb_exists. exists (tp_player_id tp).
      split; [exact (Hexists tp Hin Ht)|apply Z.eqb_refl]. }
    clearbody TR. induction TR as [|tp l IH]; simpl; [reflexivity|].
    rewrite (Hall tp (or_introl eq_refl)). f_equal. apply IH.
    intros x Hx. apply Hall. right. exact Hx. }
  unfold user_team_points. fold ms. fold TR. rewrite HTR, map_map. cbn [snd].
  set (g := fun m tp => if is_active tp (match_date m)
                        then member_points (perf_dict (performances_for db (match_id m))) tp
                        else 0).
  assert (Hteam : team_total db ms team = sumZ (map (fun m => sumZ (map (g m) TR)) ms)).
  { unfold team_total. f_equal. apply map_ext. intros m.
    rewrite team_match_points_sum, sumZ_active. unfold team_rows.
    apply sumZ_perm, Permutation_map, order_by_perm. }
  rewrite Hteam, sumZ_swap. f_equal. apply map_ext_in. intros tp Hin.
  unfold points_while_on_team. rewrite points_while_on_team_fold, Z.add_0_l.
  f_equal. apply map_ext. intros m.
  assert (Hrow : pair_rows db (team_id team) (tp_player_id tp) = [tp]).
  { apply filter_In in Hin as [Hin Ht]. apply Z.eqb_eq in Ht.
    assert (Hin' : In tp (pair_rows db (team_id team) (tp_player_id tp))).
    { apply filter_In. split; [exact Hin|]. unfold same_pair. rewrite Ht, !Z.eqb_refl. reflexivity. }
    specialize (Hpair (tp_player_id tp)).
    destruct (pair_rows db (team_id team) (tp_player_id tp)) as [|x [|y l]];
      [destruct Hin'| |simpl in Hpair; lia].
    destruct Hin' as [<-|[]]. reflexivity. }
  rewrite (was_on_team_single db _ tp _ Hrow).
  rewrite (first_performance_dict db _ _ (Hperf _ _)).
  unfold g, member_points, captain_points.
  destruct (is_active tp (match_date m)); [|reflexivity].
  destruct (perf_dict (performances_for db (match_id m)) !! tp_player_id tp) as [perf|];
    [|reflexivity].
  destruct (points perf); destruct (is_captain tp); reflexivity.
Qed.

Lemma user_team_points_total_witness :
  sumZ (map snd (user_team_points league (mkTeam 1 "A" 0))) =
  team_total league (matches league) (mkTeam 1 "A" 0).
Proof.
  apply user_team_points_total.
  - intros p. cbn [team_id]. unfold pair_rows. cbn [team_players league List.filter].
    destruct (same_pair 1 p (mkTeamPlayer 1 10 true (day 1) None)) eqn:E1,
             (same_pair 1 p (mkTeamPlayer 1 11 false (day 1) (Some (day 10)))) eqn:E2;
      cbn [length]; try lia.
    apply same_pair_true in E1, E2. simpl in E1, E2. lia.
  - intros pid mid. cbn [performances league List.filter perf_player_id perf_match_id].
    destruct ((10 =? pid) && (1 =? mid)) eqn:E1, ((11 =? pid) && (1 =? mid)) eqn:E2,
             ((10 =? pid) && (2 =? mid)) eqn:E3, ((11 =? pid) && (2 =? mid)) eqn:E4;
      cbn [length]; try lia;
      repeat match goal with H : (_ && _) = true |- _ => apply andb_true_iff in H as [? ?] end;
      repeat match goal with H : (_ =? _) = true |- _ => apply Z.eqb_eq in H end; lia.
  - intros tp Hin _. simpl in Hin. destruct Hin as [<-|[<-|[]]]; simpl; tauto.
Defined.
